(** * StandardBot (standard_v1.py): a shallow embedding and its properties

    The repository is one Python class, [StandardBot], a simulated trading
    bot.  This file embeds the class as Rocq functions over an explicit
    state record and proves (or refutes) properties of its four operations:
    the signal filter, the position sizer, the trade executor and the
    reporter.

    Modelling conventions.

    - Numbers.  Python floats (and the ints mixed with them) are embedded as
      exact rationals [Q].  This is an idealisation: rounding, infinities
      and NaN are outside the model.  Equality of computed numbers is
      therefore [Qeq] ([==]); states that are left untouched are equal by
      Leibniz equality.
    - Exceptions.  The only exception the class can raise on well-typed
      inputs is [ZeroDivisionError]; every division of the source is a
      [py_div], guarded or not, and an operation returns a [result].
    - Dictionaries.  A signal is a [dict] read only through
      [signal.get(key, default)] and ['position_size' in signal]; it is a
      record of optional fields, [None] standing for an absent key.  The
      constant regime tables are association lists read by [dict_get].
    - Effects.  [self] is passed explicitly and every operation returns the
      new [self].  The random draws of [trade] and the clock are explicit
      arguments.
    - Messages.  [trade] returns formatted strings; the embedding returns
      the message kind together with the numbers the string is formatted
      from. *)

From Stdlib Require Import QArith Qabs Lqa Lia List String ZArith Bool.
Import ListNotations.

Open Scope Q_scope.

(** ** Python primitives *)

(** [InvalidConfiguration] is the failure the specification asks of the
    constructor; no statement of the source raises it. *)
Inductive exn : Type := ZeroDivisionError | InvalidConfiguration.

Inductive result (A : Type) : Type :=
| Ok (a : A)
| Raise (e : exn).

Arguments Ok {A} a.
Arguments Raise {A} e.

Definition bind {A B : Type} (m : result A) (k : A -> result B) : result B :=
  match m with
  | Ok a => k a
  | Raise e => Raise e
  end.

Notation "x <- m ;; k" := (bind m (fun x => k))
  (at level 61, m at next level, right associativity).

(** [x < y] as a boolean. *)
Definition Qltb (x y : Q) : bool := negb (Qle_bool y x).

(** [max(a, b)]: the first argument is kept unless the second is larger. *)
Definition py_max (a b : Q) : Q := if Qltb a b then b else a.

(** [min(a, b)]: the first argument is kept unless the second is smaller. *)
Definition py_min (a b : Q) : Q := if Qltb b a then b else a.

(** [a / b], which raises when [b] is zero. *)
Definition py_div (a b : Q) : result Q :=
  if Qeq_bool b 0 then Raise ZeroDivisionError else Ok (a / b).

(** [d.get(key, default)] on an optional field. *)
Definition get {A : Type} (field : option A) (default : A) : A :=
  match field with
  | Some v => v
  | None => default
  end.

(** [key in d] on an optional field. *)
Definition contains {A : Type} (field : option A) : bool :=
  match field with
  | Some _ => true
  | None => false
  end.

(** [table.get(key, default)] on a constant dictionary with string keys. *)
Fixpoint dict_get {A : Type} (table : list (string * A)) (key : string)
  (default : A) : A :=
  match table with
  | [] => default
  | (k, v) :: rest => if String.eqb k key then v else dict_get rest key default
  end.

(** [int] to float. *)
Definition of_nat (n : nat) : Q := inject_Z (Z.of_nat n).

(** ** Data model *)

Module Signal.
(** The signal mapping; each field is a key of the dictionary. *)
Record t : Type := mk {
  score : option Q;
  volatility : option Q;
  trend : option Q;
  support_resistance : option Q;
  ai_confidence : option Q;
  regime : option string;
  volume_ratio : option Q;
  spread : option Q;
  win_probability : option Q;
  avg_win : option Q;
  momentum : option Q;
  position_size : option Q
}.

Definition empty : t :=
  mk None None None None None None None None None None None None.
End Signal.

Module Kwargs.
(** The keyword arguments of the constructor. *)
Record t : Type := mk {
  target_return : option Q;
  max_target_return : option Q;
  max_drawdown : option Q;
  stop_loss : option Q;
  max_risk : option Q;
  max_daily_trades : option Z;
  adaptive_sizing : option bool;
  confidence_threshold : option Q;
  regime_adaptation : option bool
}.

Definition empty : t := mk None None None None None None None None None.
End Kwargs.

Inductive trade_type : Type := WIN | LOSS.

Definition trade_type_eqb (a b : trade_type) : bool :=
  match a, b with
  | WIN, WIN | LOSS, LOSS => true
  | _, _ => false
  end.

Module TradeRecord.
(** An entry of [trade_history].  [amount] is the value under the key
    ['profit'] of a WIN record and ['loss'] of a LOSS record; [pct] is
    ['profit_pct'] or ['loss_pct']. *)
Record t : Type := mk {
  timestamp : string;
  type : trade_type;
  size : Q;
  amount : Q;
  pct : Q;
  confidence : Q;
  regime : string
}.
End TradeRecord.

Module DailySummary.
(** An entry of [daily_pnl_history]; [ret] is the key ['return']. *)
Record t : Type := mk {
  date : string;
  ret : Q;
  profit : Q;
  trades : Z
}.
End DailySummary.

(** The attributes of a [StandardBot] instance. *)
Record StandardBot : Type := mkBot {
  capital : Q;
  initial_capital : Q;
  target_return : Q;
  max_target_return : Q;
  max_dd : Q;
  daily_profit : Q;
  stop_loss : Q;
  max_risk_per_trade : Q;
  trades_today : Z;
  max_trades_daily : Z;
  emergency_stop_dd : Q;
  size_reduction_dd : Q;
  use_ai_sizing : bool;
  confidence_threshold : Q;
  regime_adaptation : bool;
  trade_history : list TradeRecord.t;
  daily_pnl_history : list DailySummary.t;
  best_daily_return : Q;
  worst_daily_return : Q;
  peak_capital : Q
}.

(** Attribute assignments [self.x = v]. *)
Definition set_capital (self : StandardBot) (v : Q) : StandardBot :=
  mkBot v (initial_capital self) (target_return self) (max_target_return self)
    (max_dd self) (daily_profit self) (stop_loss self)
    (max_risk_per_trade self) (trades_today self) (max_trades_daily self)
    (emergency_stop_dd self) (size_reduction_dd self) (use_ai_sizing self)
    (confidence_threshold self) (regime_adaptation self) (trade_history self)
    (daily_pnl_history self) (best_daily_return self)
    (worst_daily_return self) (peak_capital self).

Definition set_daily_profit (self : StandardBot) (v : Q) : StandardBot :=
  mkBot (capital self) (initial_capital self) (target_return self)
    (max_target_return self) (max_dd self) v (stop_loss self)
    (max_risk_per_trade self) (trades_today self) (max_trades_daily self)
    (emergency_stop_dd self) (size_reduction_dd self) (use_ai_sizing self)
    (confidence_threshold self) (regime_adaptation self) (trade_history self)
    (daily_pnl_history self) (best_daily_return self)
    (worst_daily_return self) (peak_capital self).

Definition set_trades_today (self : StandardBot) (v : Z) : StandardBot :=
  mkBot (capital self) (initial_capital self) (target_return self)
    (max_target_return self) (max_dd self) (daily_profit self)
    (stop_loss self) (max_risk_per_trade self) v (max_trades_daily self)
    (emergency_stop_dd self) (size_reduction_dd self) (use_ai_sizing self)
    (confidence_threshold self) (regime_adaptation self) (trade_history self)
    (daily_pnl_history self) (best_daily_return self)
    (worst_daily_return self) (peak_capital self).

Definition set_trade_history (self : StandardBot) (v : list TradeRecord.t)
  : StandardBot :=
  mkBot (capital self) (initial_capital self) (target_return self)
    (max_target_return self) (max_dd self) (daily_profit self)
    (stop_loss self) (max_risk_per_trade self) (trades_today self)
    (max_trades_daily self) (emergency_stop_dd self) (size_reduction_dd self)
    (use_ai_sizing self) (confidence_threshold self) (regime_adaptation self)
    v (daily_pnl_history self) (best_daily_return self)
    (worst_daily_return self) (peak_capital self).

Definition set_daily_pnl_history (self : StandardBot)
  (v : list DailySummary.t) : StandardBot :=
  mkBot (capital self) (initial_capital self) (target_return self)
    (max_target_return self) (max_dd self) (daily_profit self)
    (stop_loss self) (max_risk_per_trade self) (trades_today self)
    (max_trades_daily self) (emergency_stop_dd self) (size_reduction_dd self)
    (use_ai_sizing self) (confidence_threshold self) (regime_adaptation self)
    (trade_history self) v (best_daily_return self)
    (worst_daily_return self) (peak_capital self).

Definition set_best_daily_return (self : StandardBot) (v : Q) : StandardBot :=
  mkBot (capital self) (initial_capital self) (target_return self)
    (max_target_return self) (max_dd self) (daily_profit self)
    (stop_loss self) (max_risk_per_trade self) (trades_today self)
    (max_trades_daily self) (emergency_stop_dd self) (size_reduction_dd self)
    (use_ai_sizing self) (confidence_threshold self) (regime_adaptation self)
    (trade_history self) (daily_pnl_history self) v
    (worst_daily_return self) (peak_capital self).

Definition set_worst_daily_return (self : StandardBot) (v : Q) : StandardBot :=
  mkBot (capital self) (initial_capital self) (target_return self)
    (max_target_return self) (max_dd self) (daily_profit self)
    (stop_loss self) (max_risk_per_trade self) (trades_today self)
    (max_trades_daily self) (emergency_stop_dd self) (size_reduction_dd self)
    (use_ai_sizing self) (confidence_threshold self) (regime_adaptation self)
    (trade_history self) (daily_pnl_history self) (best_daily_return self)
    v (peak_capital self).

Definition set_peak_capital (self : StandardBot) (v : Q) : StandardBot :=
  mkBot (capital self) (initial_capital self) (target_return self)
    (max_target_return self) (max_dd self) (daily_profit self)
    (stop_loss self) (max_risk_per_trade self) (trades_today self)
    (max_trades_daily self) (emergency_stop_dd self) (size_reduction_dd self)
    (use_ai_sizing self) (confidence_threshold self) (regime_adaptation self)
    (trade_history self) (daily_pnl_history self) (best_daily_return self)
    (worst_daily_return self) v.

(** ** [__init__] (lines 7-33)

    The body is a sequence of assignments; no statement of it inspects
    [capital] or raises.  [risk_mode] is accepted and never read. *)
Definition init (capital : Q) (kwargs : Kwargs.t) : result StandardBot :=
  Ok
  {| capital := capital;
     initial_capital := capital;
     target_return := get (Kwargs.target_return kwargs) 0.02;
     max_target_return := get (Kwargs.max_target_return kwargs) 0.05;
     max_dd := get (Kwargs.max_drawdown kwargs) 0.05;
     daily_profit := 0;
     stop_loss := get (Kwargs.stop_loss kwargs) 0.01;
     max_risk_per_trade := get (Kwargs.max_risk kwargs) 0.03;
     trades_today := 0%Z;
     max_trades_daily := get (Kwargs.max_daily_trades kwargs) 12%Z;
     emergency_stop_dd := 0.045;
     size_reduction_dd := 0.035;
     use_ai_sizing := get (Kwargs.adaptive_sizing kwargs) true;
     confidence_threshold := get (Kwargs.confidence_threshold kwargs) 0.65;
     regime_adaptation := get (Kwargs.regime_adaptation kwargs) true;
     trade_history := [];
     daily_pnl_history := [];
     best_daily_return := 0;
     worst_daily_return := 0;
     peak_capital := capital |}.

(** ** [check_trade_conditions] (lines 35-69) *)

Module RegimeReq.
(** A value of the [regime_requirements] table. *)
Record t : Type := mk { min_score : Q; min_trend : Q }.
End RegimeReq.

Definition regime_requirements : list (string * RegimeReq.t) :=
  [ ("trending_bull"%string, RegimeReq.mk 0.55 0.3);
    ("trending_bear"%string, RegimeReq.mk 0.65 0.4);
    ("sideways"%string, RegimeReq.mk 0.75 0.5);
    ("high_volatility"%string, RegimeReq.mk 0.8 0.6);
    ("low_volatility"%string, RegimeReq.mk 0.5 0.25) ].

Definition check_trade_conditions (self : StandardBot) (signal : Signal.t)
  : bool :=
  let score := get (Signal.score signal) 0 in
  let volatility := get (Signal.volatility signal) 0 in
  let trend := get (Signal.trend signal) 0 in
  let support_resistance := get (Signal.support_resistance signal) 0 in
  let ai_confidence := get (Signal.ai_confidence signal) 0.5 in
  let regime := get (Signal.regime signal) "unknown"%string in
  let score_ok := Qltb 0.6 score in
  let vol_ok := Qltb 0.015 volatility && Qltb volatility 0.12 in
  let trend_ok := Qltb 0.35 (Qabs trend) in
  let sr_ok := Qltb 0.5 support_resistance in
  let confidence_ok := Qle_bool (confidence_threshold self) ai_confidence in
  let '(score_ok, trend_ok) :=
    if regime_adaptation self then
      let regime_req :=
        dict_get regime_requirements regime (RegimeReq.mk 0.6 0.35) in
      (Qltb (RegimeReq.min_score regime_req) score,
       Qltb (RegimeReq.min_trend regime_req) (Qabs trend))
    else (score_ok, trend_ok) in
  let volume_ok := Qltb 0.8 (get (Signal.volume_ratio signal) 1.0) in
  let spread_ok := Qltb (get (Signal.spread signal) 0.001) 0.005 in
  forallb (fun b : bool => b)
    [score_ok; vol_ok; trend_ok; sr_ok; confidence_ok; volume_ok; spread_ok].

(** ** [calculate_position_size] (lines 71-120) *)

Definition calculate_position_size (self : StandardBot) (signal : Signal.t)
  : result Q :=
  base_size <-
    (if use_ai_sizing self && contains (Signal.position_size signal) then
       Ok (get (Signal.position_size signal) 0 * capital self)
     else
       let win_rate := get (Signal.win_probability signal) 0.65 in
       let avg_win := get (Signal.avg_win signal) 0.025 in
       let avg_loss := stop_loss self in
       kelly <- py_div (win_rate * avg_win - (1 - win_rate) * avg_loss)
                       avg_win ;;
       let kelly := py_max 0.01 (py_min kelly (max_risk_per_trade self)) in
       Ok (capital self * kelly)) ;;
  let confidence := get (Signal.ai_confidence signal) 0.5 in
  let confidence_mult := 0.5 + (confidence * 0.5) in
  daily_return <-
    (if Qltb 0 (capital self)
     then py_div (daily_profit self) (capital self)
     else Ok 0) ;;
  let daily_mult :=
    if Qle_bool (target_return self * 0.8) daily_return then 0.5
    else if Qle_bool (target_return self * 0.6) daily_return then 0.7
    else 1.0 in
  current_dd <- py_div (initial_capital self - capital self)
                       (initial_capital self) ;;
  let dd_mult := py_max 0.5 (1 - (current_dd * 2)) in
  peak_distance <-
    (if Qltb 0 (peak_capital self)
     then py_div (peak_capital self - capital self) (peak_capital self)
     else Ok 0) ;;
  let peak_mult := py_max 0.6 (1 - peak_distance) in
  let size_reduction_factor :=
    if Qltb (size_reduction_dd self) current_dd then 0.6 else 1.0 in
  let final_size :=
    base_size * confidence_mult * dd_mult * peak_mult
    * size_reduction_factor in
  let final_size := py_min final_size (capital self * 0.04) in
  let final_size := py_max final_size (capital self * 0.005) in
  Ok final_size.

(** ** [trade] (lines 122-244) *)

(** The strings [trade] returns, by kind, with the values they format. *)
Inductive message : Type :=
| DailyLimitReached
| MinimumTargetAchieved (daily_return max_target_return : Q)
| MaximumTargetAchieved (daily_return : Q)
| DrawdownLimitExceeded (current_dd max_dd : Q)
| Skipped
| StandardWin (profit final_profit_pct capital daily : Q)
| StandardLoss (loss adjusted_loss_pct capital daily : Q).

Definition regime_adjustments : list (string * Q) :=
  [ ("trending_bull"%string, 1.1);
    ("trending_bear"%string, 1.05);
    ("sideways"%string, 0.95);
    ("high_volatility"%string, 0.85);
    ("low_volatility"%string, 1.15) ].

Definition regime_profit_bonus : list (string * Q) :=
  [ ("trending_bull"%string, 1.2);
    ("trending_bear"%string, 1.1);
    ("sideways"%string, 0.9);
    ("high_volatility"%string, 1.1);
    ("low_volatility"%string, 1.0) ].

Definition regime_loss_adj : list (string * Q) :=
  [ ("trending_bull"%string, 0.9);
    ("trending_bear"%string, 1.0);
    ("sideways"%string, 1.1);
    ("high_volatility"%string, 1.3);
    ("low_volatility"%string, 0.8) ].

(** [random.uniform(a, b)], computed by the standard library as
    [a + (b - a) * random()]; [w] is that draw. *)
Definition uniform (a b w : Q) : Q := a + (b - a) * w.

(** The success probability of lines 149-166.  [momentum] is bound on line
    150 and never used. *)
Definition success_probability (signal : Signal.t) : Q :=
  let confidence := get (Signal.ai_confidence signal) 0.5 in
  let momentum := get (Signal.momentum signal) 0.5 in
  let regime := get (Signal.regime signal) "unknown"%string in
  let base_success_prob := 0.55 + (confidence * 0.25) in
  let success_prob :=
    base_success_prob * dict_get regime_adjustments regime 1.0 in
  py_min 0.85 (py_max 0.50 success_prob).

(** The winning branch, lines 170-209.  The message on line 209 divides by
    the updated capital after every assignment has been made. *)
Definition trade_win (self : StandardBot) (signal : Signal.t)
  (position_size w : Q) (now : string) : StandardBot * result message :=
  let confidence := get (Signal.ai_confidence signal) 0.5 in
  let regime := get (Signal.regime signal) "unknown"%string in
  let base_profit_pct := uniform 0.015 0.035 w in
  let confidence_bonus := 1 + ((confidence - 0.5) * 0.2) in
  let final_profit_pct :=
    base_profit_pct * confidence_bonus
    * dict_get regime_profit_bonus regime 1.0 in
  let final_profit_pct := py_min 0.045 final_profit_pct in
  let profit := position_size * final_profit_pct in
  let self := set_capital self (capital self + profit) in
  let self := set_daily_profit self (daily_profit self + profit) in
  let self :=
    if Qltb (peak_capital self) (capital self)
    then set_peak_capital self (capital self)
    else self in
  let self := set_trades_today self (trades_today self + 1)%Z in
  let trade_record :=
    TradeRecord.mk now WIN position_size profit final_profit_pct
      confidence regime in
  let self := set_trade_history self (trade_history self ++ [trade_record]) in
  (self,
   daily <- py_div (daily_profit self) (capital self) ;;
   Ok (StandardWin profit final_profit_pct (capital self) daily)).

(** The losing branch, lines 212-244. *)
Definition trade_loss (self : StandardBot) (signal : Signal.t)
  (position_size : Q) (now : string) : StandardBot * result message :=
  let confidence := get (Signal.ai_confidence signal) 0.5 in
  let regime := get (Signal.regime signal) "unknown"%string in
  let base_loss_pct := stop_loss self in
  let adjusted_loss_pct :=
    base_loss_pct * dict_get regime_loss_adj regime 1.0 in
  let adjusted_loss_pct := py_min 0.025 adjusted_loss_pct in
  let loss := position_size * adjusted_loss_pct in
  let self := set_capital self (capital self - loss) in
  let self := set_daily_profit self (daily_profit self - loss) in
  let self := set_trades_today self (trades_today self + 1)%Z in
  let trade_record :=
    TradeRecord.mk now LOSS position_size loss adjusted_loss_pct
      confidence regime in
  let self := set_trade_history self (trade_history self ++ [trade_record]) in
  (self,
   daily <- py_div (daily_profit self) (capital self) ;;
   Ok (StandardLoss loss adjusted_loss_pct (capital self) daily)).

(** [trade(signal)].  [u] is the value of [random.random()] on line 169, [w]
    the draw behind [random.uniform] on line 171 (consumed only by a winning
    trade) and [now] the clock reading.  An exception raised before line 188
    leaves [self] as it was. *)
Definition trade (self : StandardBot) (signal : Signal.t) (u w : Q)
  (now : string) : StandardBot * result message :=
  if (max_trades_daily self <=? trades_today self)%Z then
    (self, Ok DailyLimitReached)
  else
    match (if Qltb 0 (capital self)
           then py_div (daily_profit self) (capital self)
           else Ok 0) with
    | Raise e => (self, Raise e)
    | Ok daily_return =>
      let target_achieved := Qle_bool (target_return self) daily_return in
      if target_achieved && Qltb daily_return (max_target_return self) then
        (self,
         Ok (MinimumTargetAchieved daily_return (max_target_return self)))
      else if Qle_bool (max_target_return self) daily_return then
        (self, Ok (MaximumTargetAchieved daily_return))
      else
        match py_div (initial_capital self - capital self)
                     (initial_capital self) with
        | Raise e => (self, Raise e)
        | Ok current_dd =>
          if Qltb (max_dd self) current_dd then
            (self, Ok (DrawdownLimitExceeded current_dd (max_dd self)))
          else if negb (check_trade_conditions self signal) then
            (self, Ok Skipped)
          else
            match calculate_position_size self signal with
            | Raise e => (self, Raise e)
            | Ok position_size =>
              let success_prob := success_probability signal in
              if Qltb u success_prob
              then trade_win self signal position_size w now
              else trade_loss self signal position_size now
            end
        end
    end.

(** ** [reset_daily_stats] (lines 246-262); [today] is the clock's date. *)
Definition reset_daily_stats (self : StandardBot) (today : string)
  : StandardBot * result unit :=
  let reset (self : StandardBot) :=
    let self := set_daily_profit self 0 in
    let self := set_trades_today self 0%Z in
    (self, Ok tt) in
  if Qltb 0 (capital self) then
    match py_div (daily_profit self) (capital self) with
    | Raise e => (self, Raise e)
    | Ok daily_return =>
      let self :=
        set_daily_pnl_history self
          (daily_pnl_history self
           ++ [DailySummary.mk today daily_return (daily_profit self)
                 (trades_today self)]) in
      let self :=
        set_best_daily_return self
          (py_max (best_daily_return self) daily_return) in
      let self :=
        set_worst_daily_return self
          (py_min (worst_daily_return self) daily_return) in
      reset self
    end
  else reset self.

(** ** [get_status] (lines 264-298) *)

Module Status.
(** The returned dictionary.  A field that the source formats with
    [:.1%] or [:.0f] holds the number that is formatted. *)
Record t : Type := mk {
  strategy : string;
  capital : Q;
  initial_capital : Q;
  total_return : Q;
  daily_return : Q;
  daily_min_target : Q;
  daily_max_target : Q;
  target_progress : Q;
  drawdown : Q;
  trades_today : Z;
  total_trades : nat;
  win_rate : Q;
  avg_daily_return : Q;
  best_daily : Q;
  worst_daily : Q;
  peak_capital : Q;
  ai_enhanced : bool;
  risk_level : string;
  timestamp : string
}.
End Status.

(** [trade_history[-30:] if len(trade_history) >= 30 else trade_history]. *)
Definition recent_trades (history : list TradeRecord.t)
  : list TradeRecord.t :=
  if (30 <=? List.length history)%nat
  then skipn (List.length history - 30) history
  else history.

(** [sum(...)]: left to right from the integer 0. *)
Definition sum (xs : list Q) : Q := fold_left Qplus xs 0.

(** Truth value of a list: non-empty. *)
Definition nonempty {A : Type} (l : list A) : bool :=
  match l with
  | [] => false
  | _ :: _ => true
  end.

Definition get_status (self : StandardBot) (now : string)
  : StandardBot * result Status.t :=
  (self,
   current_dd <-
     (if Qltb 0 (initial_capital self)
      then py_div (initial_capital self - capital self) (initial_capital self)
      else Ok 0) ;;
   total_return <-
     (if Qltb 0 (initial_capital self)
      then py_div (capital self - initial_capital self) (initial_capital self)
      else Ok 0) ;;
   daily_return <-
     (if Qltb 0 (capital self)
      then py_div (daily_profit self) (capital self)
      else Ok 0) ;;
   let recent_trades := recent_trades (trade_history self) in
   let wins :=
     List.length
       (filter (fun t => trade_type_eqb (TradeRecord.type t) WIN)
          recent_trades) in
   win_rate <-
     (if nonempty recent_trades
      then py_div (of_nat wins) (of_nat (List.length recent_trades))
      else Ok 0) ;;
   avg_daily_return <-
     (if nonempty (daily_pnl_history self)
      then py_div (sum (map DailySummary.ret (daily_pnl_history self)))
                  (of_nat (List.length (daily_pnl_history self)))
      else Ok 0) ;;
   target_progress <-
     (if Qltb 0 (target_return self)
      then ratio <- py_div daily_return (target_return self) ;;
           Ok (ratio * 100)
      else Ok 0) ;;
   Ok {| Status.strategy := "StandardBot";
         Status.capital := capital self;
         Status.initial_capital := initial_capital self;
         Status.total_return := total_return;
         Status.daily_return := daily_return;
         Status.daily_min_target := target_return self;
         Status.daily_max_target := max_target_return self;
         Status.target_progress := target_progress;
         Status.drawdown := current_dd;
         Status.trades_today := trades_today self;
         Status.total_trades := List.length (trade_history self);
         Status.win_rate := win_rate;
         Status.avg_daily_return := avg_daily_return;
         Status.best_daily := best_daily_return self;
         Status.worst_daily := worst_daily_return self;
         Status.peak_capital := peak_capital self;
         Status.ai_enhanced := true;
         Status.risk_level := "conservative";
         Status.timestamp := now |}).

(** ** Operations and reachable states *)

(** A call of one of the public methods, with the values the call draws
    from the random generator and the clock. *)
Inductive op : Type :=
| Trade (signal : Signal.t) (u w : Q) (now : string)
| ResetDailyStats (today : string)
| GetStatus (now : string).

(** [random.random()] returns a value of [[0, 1)]. *)
Definition unit_draw (x : Q) : Prop := 0 <= x /\ x < 1.

Definition valid_op (o : op) : Prop :=
  match o with
  | Trade _ u w _ => unit_draw u /\ unit_draw w
  | ResetDailyStats _ | GetStatus _ => True
  end.

(** The instance after a call.  A call that raises leaves the instance as
    the statements executed before the exception made it. *)
Definition run (self : StandardBot) (o : op) : StandardBot :=
  match o with
  | Trade signal u w now => fst (trade self signal u w now)
  | ResetDailyStats today => fst (reset_daily_stats self today)
  | GetStatus now => fst (get_status self now)
  end.

(** The states of an instance constructed by [StandardBot(capital, **kwargs)]
    and driven through its public methods. *)
Inductive reachable (capital0 : Q) (kwargs : Kwargs.t) : StandardBot -> Prop :=
| reachable_init (self : StandardBot) :
    init capital0 kwargs = Ok self -> reachable capital0 kwargs self
| reachable_run (self : StandardBot) (o : op) :
    reachable capital0 kwargs self -> valid_op o ->
    reachable capital0 kwargs (run self o).

(** ** The specification's wording of the computed quantities *)

(** The regime threshold table of section 4.2, as (min_score, min_trend). *)
Definition spec_thresholds (adaptation : bool) (regime : string) : Q * Q :=
  if negb adaptation then (0.6, 0.35)
  else if String.eqb regime "trending_bull" then (0.55, 0.30)
  else if String.eqb regime "trending_bear" then (0.65, 0.40)
  else if String.eqb regime "sideways" then (0.75, 0.50)
  else if String.eqb regime "high_volatility" then (0.80, 0.60)
  else if String.eqb regime "low_volatility" then (0.50, 0.25)
  else (0.60, 0.35).

(** The seven predicates of section 4.2 with the documented defaults. *)
Definition seven_predicates (self : StandardBot) (signal : Signal.t) : Prop :=
  let score := get (Signal.score signal) 0 in
  let volatility := get (Signal.volatility signal) 0 in
  let trend := get (Signal.trend signal) 0 in
  let support_resistance := get (Signal.support_resistance signal) 0 in
  let ai_confidence := get (Signal.ai_confidence signal) 0.5 in
  let regime := get (Signal.regime signal) "unknown"%string in
  let volume_ratio := get (Signal.volume_ratio signal) 1.0 in
  let spread := get (Signal.spread signal) 0.001 in
  let thresholds := spec_thresholds (regime_adaptation self) regime in
  fst thresholds < score
  /\ (0.015 < volatility /\ volatility < 0.12)
  /\ snd thresholds < Qabs trend
  /\ 0.5 < support_resistance
  /\ confidence_threshold self <= ai_confidence
  /\ 0.8 < volume_ratio
  /\ spread < 0.005.

(** Today's realized return ratio: [daily_profit / capital], 0 when the
    capital is not positive. *)
Definition daily_return_ratio (self : StandardBot) : Q :=
  if Qltb 0 (capital self) then daily_profit self / capital self else 0.

(** Drawdown: [(initial_capital - capital) / initial_capital]. *)
Definition drawdown (self : StandardBot) : Q :=
  (initial_capital self - capital self) / initial_capital self.

(** The first two gates of [trade] let a call through exactly when the
    trade count is below its limit and the daily return ratio is below both
    targets. *)
Definition passes_early_gates (self : StandardBot) : Prop :=
  (trades_today self < max_trades_daily self)%Z
  /\ daily_return_ratio self < target_return self
  /\ daily_return_ratio self < max_target_return self.

(** [daily_mult] of section 4.3. *)
Definition spec_daily_mult (self : StandardBot) : Q :=
  if Qle_bool (target_return self * 0.8) (daily_return_ratio self) then 0.5
  else if Qle_bool (target_return self * 0.6) (daily_return_ratio self)
       then 0.7
       else 1.0.

Definition clamp (lo hi x : Q) : Q := py_max (py_min x hi) lo.

(** The base size of section 4.3, defined where the source does not raise. *)
Definition spec_base_size (self : StandardBot) (signal : Signal.t) : Q :=
  match (if use_ai_sizing self then Signal.position_size signal else None)
  with
  | Some fraction => fraction * capital self
  | None =>
    let win_rate := get (Signal.win_probability signal) 0.65 in
    let avg_win := get (Signal.avg_win signal) 0.025 in
    let kelly :=
      (win_rate * avg_win - (1 - win_rate) * stop_loss self) / avg_win in
    capital self * clamp 0.01 (max_risk_per_trade self) kelly
  end.

(** The final size of section 4.3:
    [base * confidence_mult * daily_mult * dd_mult * peak_mult *
     size_reduction_factor], clamped to [[0.005 * capital, 0.04 * capital]]. *)
Definition spec_position_size (self : StandardBot) (signal : Signal.t) : Q :=
  let base := spec_base_size self signal in
  let confidence_mult := 0.5 + 0.5 * get (Signal.ai_confidence signal) 0.5 in
  let daily_mult := spec_daily_mult self in
  let dd_mult := py_max 0.5 (1 - 2 * drawdown self) in
  let peak_distance :=
    if Qltb 0 (peak_capital self)
    then (peak_capital self - capital self) / peak_capital self
    else 0 in
  let peak_mult := py_max 0.6 (1 - peak_distance) in
  let size_reduction_factor :=
    if Qltb 0.035 (drawdown self) then 0.6 else 1.0 in
  clamp (0.005 * capital self) (0.04 * capital self)
    (base * confidence_mult * daily_mult * dd_mult * peak_mult
     * size_reduction_factor).

(** The last [n] entries of a list (all of it when it is shorter). *)
Definition last_entries {A : Type} (n : nat) (l : list A) : list A :=
  rev (firstn n (rev l)).

(** The number of WIN records of a list. *)
Fixpoint count_wins (l : list TradeRecord.t) : nat :=
  match l with
  | [] => 0
  | t :: rest =>
    match TradeRecord.type t with
    | WIN => S (count_wins rest)
    | LOSS => count_wins rest
    end
  end.

(** Two signals that differ at most in the key ['momentum']. *)
Definition same_but_momentum (s1 s2 : Signal.t) : Prop :=
  Signal.score s1 = Signal.score s2
  /\ Signal.volatility s1 = Signal.volatility s2
  /\ Signal.trend s1 = Signal.trend s2
  /\ Signal.support_resistance s1 = Signal.support_resistance s2
  /\ Signal.ai_confidence s1 = Signal.ai_confidence s2
  /\ Signal.regime s1 = Signal.regime s2
  /\ Signal.volume_ratio s1 = Signal.volume_ratio s2
  /\ Signal.spread s1 = Signal.spread s2
  /\ Signal.win_probability s1 = Signal.win_probability s2
  /\ Signal.avg_win s1 = Signal.avg_win s2
  /\ Signal.position_size s1 = Signal.position_size s2.

(** ** Concrete inputs *)

(** The instance [StandardBot(10000)]. *)
Definition bot_10000 : StandardBot :=
  mkBot 10000 10000 0.02 0.05 0.05 0 0.01 0.03 0 12 0.045 0.035 true 0.65
    true [] [] 0 0 10000.

(** The scenario signal of section 8 of the specification. *)
Definition scenario_signal : Signal.t :=
  Signal.mk (Some 0.9) (Some 0.05) (Some 0.5) (Some 0.8) (Some 0.9)
    (Some "trending_bull"%string) (Some 1.0) (Some 0.001) None None None None.

(** An instance that has won back 170 today: the daily return ratio 0.017
    is above 80% of the 2% target. *)
Definition bot_near_target : StandardBot :=
  mkBot 10000 10000 0.02 0.05 0.05 170 0.01 0.03 0 12 0.045 0.035 true 0.65
    true [] [] 0 0 10000.

(** [{'position_size': 0.03, 'ai_confidence': 1.0}]. *)
Definition sized_signal : Signal.t :=
  Signal.mk None None None None (Some 1.0) None None None None None None
    (Some 0.03).

(** The drawdown example of section 8: [initial_capital = 1000],
    [capital = 940], [max_drawdown = 0.05]. *)
Definition bot_in_drawdown : StandardBot :=
  mkBot 940 1000 0.02 0.05 0.05 0 0.01 0.03 0 12 0.045 0.035 true 0.65
    true [] [] 0 0 1000.

(** The same instance once twelve trades have been made today. *)
Definition bot_in_drawdown_at_limit : StandardBot :=
  set_trades_today bot_in_drawdown 12.

(** [{'momentum': 0.9}] added to the scenario signal. *)
Definition scenario_signal_with_momentum : Signal.t :=
  Signal.mk (Some 0.9) (Some 0.05) (Some 0.5) (Some 0.8) (Some 0.9)
    (Some "trending_bull"%string) (Some 1.0) (Some 0.001) None None
    (Some 0.9) None.

(** [StandardBot(10000, stop_loss=-0.01)]. *)
Definition kwargs_negative_stop : Kwargs.t :=
  Kwargs.mk None None None (Some (-0.01)) None None None None None.

Definition bot_negative_stop : StandardBot :=
  mkBot 10000 10000 0.02 0.05 0.05 0 (-0.01) 0.03 0 12 0.045 0.035 true 0.65
    true [] [] 0 0 10000.

(** The scenario signal traded once with the draw 0.9, above the success
    probability 0.85: the losing branch. *)
Definition losing_trade : op := Trade scenario_signal 0.9 0 "t".

(** The instance [StandardBot(-100)]. *)
Definition bot_negative : StandardBot :=
  mkBot (-100) (-100) 0.02 0.05 0.05 0 0.01 0.03 0 12 0.045 0.035 true 0.65
    true [] [] 0 0 (-100).

(** The drawdown example with 20 earned today: the daily return ratio
    20/940 is above the 2% target. *)
Definition bot_in_drawdown_on_target : StandardBot :=
  set_daily_profit bot_in_drawdown 20.

(** ** The quantities of an executed trade *)

(** [final_profit_pct] of the winning branch, lines 171-185. *)
Definition win_pct (signal : Signal.t) (w : Q) : Q :=
  let confidence := get (Signal.ai_confidence signal) 0.5 in
  let regime := get (Signal.regime signal) "unknown"%string in
  py_min 0.045
    (uniform 0.015 0.035 w * (1 + ((confidence - 0.5) * 0.2))
     * dict_get regime_profit_bonus regime 1.0).

(** [adjusted_loss_pct] of the losing branch, lines 213-225. *)
Definition loss_pct (self : StandardBot) (signal : Signal.t) : Q :=
  let regime := get (Signal.regime signal) "unknown"%string in
  py_min 0.025 (stop_loss self * dict_get regime_loss_adj regime 1.0).

(** The [trade_record] logged on lines 198-206 or 233-241. *)
Definition executed_record (self : StandardBot) (signal : Signal.t)
  (position_size u w : Q) (now : string) : TradeRecord.t :=
  let confidence := get (Signal.ai_confidence signal) 0.5 in
  let regime := get (Signal.regime signal) "unknown"%string in
  if Qltb u (success_probability signal) then
    TradeRecord.mk now WIN position_size
      (position_size * win_pct signal w) (win_pct signal w) confidence regime
  else
    TradeRecord.mk now LOSS position_size
      (position_size * loss_pct self signal) (loss_pct self signal)
      confidence regime.

(** What a trade record adds to the capital: the profit of a WIN, minus
    the loss of a LOSS. *)
Definition signed_amount (r : TradeRecord.t) : Q :=
  match TradeRecord.type r with
  | WIN => TradeRecord.amount r
  | LOSS => - TradeRecord.amount r
  end.

Fixpoint signed_sum (l : list TradeRecord.t) : Q :=
  match l with
  | [] => 0
  | r :: rest => signed_amount r + signed_sum rest
  end.

(** The instance once the assignments of lines 188-207 or 228-242 have
    logged the record [r]. *)
Definition after_trade (self : StandardBot) (r : TradeRecord.t)
  : StandardBot :=
  mkBot (capital self + signed_amount r) (initial_capital self)
    (target_return self) (max_target_return self) (max_dd self)
    (daily_profit self + signed_amount r) (stop_loss self)
    (max_risk_per_trade self) (trades_today self + 1)%Z
    (max_trades_daily self) (emergency_stop_dd self) (size_reduction_dd self)
    (use_ai_sizing self) (confidence_threshold self) (regime_adaptation self)
    (trade_history self ++ [r]) (daily_pnl_history self)
    (best_daily_return self) (worst_daily_return self)
    (match TradeRecord.type r with
     | WIN => py_max (peak_capital self) (capital self + signed_amount r)
     | LOSS => peak_capital self
     end).

(** The four gates of lines 124-143 all let the call through. *)
Definition all_gates_pass (self : StandardBot) (signal : Signal.t) : Prop :=
  passes_early_gates self
  /\ ~ initial_capital self == 0
  /\ drawdown self <= max_dd self
  /\ check_trade_conditions self signal = true.

(** The attributes set by the constructor from its arguments and never
    assigned again. *)
Definition same_configuration (a b : StandardBot) : Prop :=
  initial_capital a = initial_capital b
  /\ target_return a = target_return b
  /\ max_target_return a = max_target_return b
  /\ max_dd a = max_dd b
  /\ stop_loss a = stop_loss b
  /\ max_risk_per_trade a = max_risk_per_trade b
  /\ max_trades_daily a = max_trades_daily b
  /\ emergency_stop_dd a = emergency_stop_dd b
  /\ size_reduction_dd a = size_reduction_dd b
  /\ use_ai_sizing a = use_ai_sizing b
  /\ confidence_threshold a = confidence_threshold b
  /\ regime_adaptation a = regime_adaptation b.


(** A winning trade of the scenario signal: draw 0.5 below 0.85. *)
Definition winning_trade : op := Trade scenario_signal 0.5 0.5 "t".

(** The instance once [reset_daily_stats] has run: the summary of lines
    249-259 is logged only for a positive capital, the two counters are
    cleared in any case. *)
Definition after_reset (self : StandardBot) (today : string) : StandardBot :=
  let positive := Qltb 0 (capital self) in
  let daily_return := daily_profit self / capital self in
  mkBot (capital self) (initial_capital self) (target_return self)
    (max_target_return self) (max_dd self) 0 (stop_loss self)
    (max_risk_per_trade self) 0%Z (max_trades_daily self)
    (emergency_stop_dd self) (size_reduction_dd self) (use_ai_sizing self)
    (confidence_threshold self) (regime_adaptation self) (trade_history self)
    (if positive
     then daily_pnl_history self
          ++ [DailySummary.mk today daily_return (daily_profit self)
                (trades_today self)]
     else daily_pnl_history self)
    (if positive then py_max (best_daily_return self) daily_return
     else best_daily_return self)
    (if positive then py_min (worst_daily_return self) daily_return
     else worst_daily_return self)
    (peak_capital self).

(** A logged record is coherent: the amount is size times percentage, and
    the percentage respects the cap of its branch. *)
Definition record_ok (r : TradeRecord.t) : Prop :=
  TradeRecord.amount r = TradeRecord.size r * TradeRecord.pct r
  /\ TradeRecord.pct r
     <= match TradeRecord.type r with WIN => 0.045 | LOSS => 0.025 end.

(** A record that a valid call of [trade] on [self] logs. *)
Definition logged_by (self : StandardBot) (r : TradeRecord.t) : Prop :=
  exists signal position_size u w now,
    unit_draw u /\ unit_draw w
    /\ all_gates_pass self signal
    /\ calculate_position_size self signal = Ok position_size
    /\ r = executed_record self signal position_size u w now.

(** * Properties *)

(** ** Boolean comparisons and Python primitives *)

Lemma Qltb_true (x y : Q) : Qltb x y = true <-> x < y.
Proof.
  unfold Qltb. rewrite negb_true_iff.
  split; intro H.
  - apply Qnot_le_lt. intro Hle. apply Qle_bool_iff in Hle. congruence.
  - destruct (Qle_bool y x) eqn:E; [|reflexivity].
    apply Qle_bool_iff in E. apply Qlt_not_le in H. contradiction.
Qed.

Lemma Qltb_false (x y : Q) : Qltb x y = false <-> y <= x.
Proof.
  unfold Qltb. rewrite negb_false_iff. apply Qle_bool_iff.
Qed.

Lemma Qle_bool_false (x y : Q) : Qle_bool x y = false <-> y < x.
Proof.
  rewrite <- Qltb_true. unfold Qltb.
  destruct (Qle_bool x y); simpl; split; congruence.
Qed.

Lemma Qeq_bool_false (x y : Q) : Qeq_bool x y = false <-> ~ x == y.
Proof.
  split; intro H.
  - intro E. apply Qeq_bool_iff in E. congruence.
  - destruct (Qeq_bool x y) eqn:E; [|reflexivity].
    apply Qeq_bool_iff in E. contradiction.
Qed.

(** Turn every boolean comparison among the hypotheses into its relation. *)
Ltac props :=
  repeat match goal with
  | H : Qltb _ _ = true |- _ => apply Qltb_true in H
  | H : Qltb _ _ = false |- _ => apply Qltb_false in H
  | H : Qle_bool _ _ = true |- _ => apply Qle_bool_iff in H
  | H : Qle_bool _ _ = false |- _ => apply Qle_bool_false in H
  | H : Qeq_bool _ _ = true |- _ => apply Qeq_bool_iff in H
  | H : Qeq_bool _ _ = false |- _ => apply Qeq_bool_false in H
  | H : andb _ _ = true |- _ => apply andb_true_iff in H; destruct H
  | H : (_ <=? _)%Z = true |- _ => apply Z.leb_le in H
  | H : (_ <=? _)%Z = false |- _ => apply Z.leb_gt in H
  end.

Lemma py_max_cases (a b : Q) :
  (a < b /\ py_max a b = b) \/ (b <= a /\ py_max a b = a).
Proof.
  unfold py_max. destruct (Qltb a b) eqn:E; props; auto.
Qed.

Lemma py_min_cases (a b : Q) :
  (b < a /\ py_min a b = b) \/ (a <= b /\ py_min a b = a).
Proof.
  unfold py_min. destruct (Qltb b a) eqn:E; props; auto.
Qed.

Lemma py_max_lower (a b : Q) : a <= py_max a b /\ b <= py_max a b.
Proof.
  destruct (py_max_cases a b) as [[H ->]|[H ->]]; lra.
Qed.

Lemma py_min_upper (a b : Q) : py_min a b <= a /\ py_min a b <= b.
Proof.
  destruct (py_min_cases a b) as [[H ->]|[H ->]]; lra.
Qed.

Lemma clamp_within (lo hi x : Q) :
  lo <= hi -> lo <= py_max (py_min x hi) lo /\ py_max (py_min x hi) lo <= hi.
Proof.
  intro H.
  destruct (py_max_cases (py_min x hi) lo) as [[H1 ->]|[H1 ->]];
    pose proof (py_min_upper x hi); lra.
Qed.

Lemma py_div_Ok (a b : Q) : ~ b == 0 -> py_div a b = Ok (a / b).
Proof.
  intro H. unfold py_div. apply Qeq_bool_false in H. now rewrite H.
Qed.

(** A division guarded by [if divisor > 0] never raises. *)
Lemma guarded_div (a c : Q) :
  (if Qltb 0 c then py_div a c else Ok 0)
  = Ok (if Qltb 0 c then a / c else 0).
Proof.
  destruct (Qltb 0 c) eqn:E; [|reflexivity].
  props. apply py_div_Ok. lra.
Qed.

Lemma bind_Ok_inv {A B : Type} (m : result A) (k : A -> result B) (b : B) :
  bind m k = Ok b -> exists a, m = Ok a /\ k a = Ok b.
Proof.
  destruct m; simpl; [eauto | discriminate].
Qed.

(** ** The position sizer *)

(** Whatever the sizer returns is the result of the two final clamps. *)
Lemma calculate_position_size_clamped (self : StandardBot)
  (signal : Signal.t) (v : Q) :
  calculate_position_size self signal = Ok v ->
  exists x,
    v = py_max (py_min x (capital self * 0.04)) (capital self * 0.005).
Proof.
  unfold calculate_position_size. intro H.
  repeat (apply bind_Ok_inv in H; destruct H as [? [_ H]]).
  injection H as <-. eauto.
Qed.

(** The sizer raises only on a zero [initial_capital] or, on the Kelly
    path, a zero [avg_win]. *)
Lemma calculate_position_size_returns (self : StandardBot)
  (signal : Signal.t) :
  ~ initial_capital self == 0 ->
  use_ai_sizing self && contains (Signal.position_size signal) = true
  \/ ~ get (Signal.avg_win signal) 0.025 == 0 ->
  exists v, calculate_position_size self signal = Ok v.
Proof.
  intros Hi Hb. unfold calculate_position_size.
  rewrite !guarded_div, (py_div_Ok _ _ Hi). simpl.
  destruct (use_ai_sizing self && contains (Signal.position_size signal))
    eqn:E; simpl; [eauto|].
  destruct Hb as [Hb|Hb]; [discriminate|].
  rewrite (py_div_Ok _ _ Hb). simpl. eauto.
Qed.

(** The sizer does not read [daily_profit]: the [daily_mult] it computes on
    lines 92-98 is absent from the product of line 114. *)
Lemma calculate_position_size_ignores_daily_profit (self : StandardBot)
  (signal : Signal.t) (d : Q) :
  calculate_position_size (set_daily_profit self d) signal
  = calculate_position_size self signal.
Proof.
  unfold calculate_position_size. rewrite !guarded_div. reflexivity.
Qed.

(** The scenario of section 8: the filter accepts, the size is 285, inside
    [[50, 400]], and a losing trade takes 285 * 0.009 off the capital. *)
Example scenario_filter_accepts :
  check_trade_conditions bot_10000 scenario_signal = true.
Proof. vm_compute. reflexivity. Qed.

Example scenario_position_size :
  exists v,
    calculate_position_size bot_10000 scenario_signal = Ok v /\ v == 285.
Proof. eexists. split; vm_compute; reflexivity. Qed.

Example scenario_losing_trade :
  let self := run bot_10000 losing_trade in
  capital self == 10000 - 285 * 0.009
  /\ daily_profit self == - (285 * 0.009)
  /\ trades_today self = 1%Z
  /\ List.length (trade_history self) = 1%nat.
Proof. repeat split; vm_compute; reflexivity. Qed.

(** C1 (code defect).  At [bot_near_target] the specification's formula
    halves the size ([daily_mult = 0.5], final size 150), while
    [calculate_position_size] returns 300: the product on line 114 leaves
    [daily_mult] out. *)
Theorem C1_daily_mult_is_dropped :
  exists v,
    calculate_position_size bot_near_target sized_signal = Ok v
    /\ v == 300
    /\ spec_daily_mult bot_near_target == 0.5
    /\ spec_position_size bot_near_target sized_signal == 150
    /\ 0.005 * capital bot_near_target <= 150
    /\ 300 <= 0.04 * capital bot_near_target.
Proof.
  eexists. split; [vm_compute; reflexivity|].
  repeat split; vm_compute; congruence.
Qed.

(** C2.  For every signal and every state with positive capital, a value
    returned by [calculate_position_size] lies in
    [[0.005 * capital, 0.04 * capital]]; and a value is returned whenever
    [initial_capital] is not zero and either the signal carries a position
    size that adaptive sizing uses or [avg_win] is not zero. *)
Theorem C2_position_size_within_bounds (self : StandardBot)
  (signal : Signal.t) :
  0 < capital self ->
  (forall v,
     calculate_position_size self signal = Ok v ->
     0.005 * capital self <= v /\ v <= 0.04 * capital self)
  /\ (~ initial_capital self == 0 ->
      use_ai_sizing self && contains (Signal.position_size signal) = true
      \/ ~ get (Signal.avg_win signal) 0.025 == 0 ->
      exists v, calculate_position_size self signal = Ok v).
Proof.
  intro Hc. split.
  - intros v Hv.
    destruct (calculate_position_size_clamped _ _ _ Hv) as [x ->].
    pose proof (clamp_within (capital self * 0.005) (capital self * 0.04) x).
    lra.
  - apply calculate_position_size_returns.
Qed.

Lemma C2_witness :
  0 < capital bot_10000
  /\ (forall v,
        calculate_position_size bot_10000 scenario_signal = Ok v ->
        0.005 * 10000 <= v /\ v <= 0.04 * 10000)
  /\ exists v, calculate_position_size bot_10000 scenario_signal = Ok v.
Proof.
  assert (Hc : 0 < capital bot_10000) by (vm_compute; reflexivity).
  destruct (C2_position_size_within_bounds bot_10000 scenario_signal Hc)
    as [Hb Hr].
  split; [exact Hc|]. split; [exact Hb|].
  apply Hr.
  - vm_compute. discriminate.
  - right. vm_compute. discriminate.
Defined.

(** ** The gates of [trade] *)

(** C3.  Once [trades_today >= max_daily_trades], [trade] returns the
    daily-trade-limit message and the instance, with every attribute and
    the whole of [trade_history], is unchanged, whatever the signal. *)
Theorem C3_daily_limit_gate (self : StandardBot) (signal : Signal.t)
  (u w : Q) (now : string) :
  (max_trades_daily self <= trades_today self)%Z ->
  trade self signal u w now = (self, Ok DailyLimitReached).
Proof.
  intro H. unfold trade.
  apply Z.leb_le in H. now rewrite H.
Qed.

Lemma C3_witness :
  (max_trades_daily bot_in_drawdown_at_limit
   <= trades_today bot_in_drawdown_at_limit)%Z
  /\ trade bot_in_drawdown_at_limit scenario_signal 0.5 0.5 "t"
     = (bot_in_drawdown_at_limit, Ok DailyLimitReached).
Proof.
  assert (H : (max_trades_daily bot_in_drawdown_at_limit
               <= trades_today bot_in_drawdown_at_limit)%Z)
    by (vm_compute; discriminate).
  split; [exact H|].
  exact (C3_daily_limit_gate bot_in_drawdown_at_limit scenario_signal
           0.5 0.5 "t" H).
Defined.

(** C4 as stated fails: with the drawdown of section 8 (6% against a 5%
    limit) and twelve trades made today, [trade] answers with the
    daily-trade-limit message, not the drawdown one. *)
Lemma C4_counterexample :
  ~ initial_capital bot_in_drawdown_at_limit == 0
  /\ max_dd bot_in_drawdown_at_limit < drawdown bot_in_drawdown_at_limit
  /\ snd (trade bot_in_drawdown_at_limit scenario_signal 0.5 0.5 "t")
     = Ok DailyLimitReached.
Proof.
  repeat split; vm_compute; congruence.
Qed.

(** The daily-target gate comes before the drawdown gate as well. *)
Example target_gate_precedes_drawdown_gate :
  max_dd bot_in_drawdown_on_target < drawdown bot_in_drawdown_on_target
  /\ exists r,
       r == 20 / 940
       /\ snd (trade bot_in_drawdown_on_target scenario_signal 0.5 0.5 "t")
          = Ok (MinimumTargetAchieved r 0.05).
Proof.
  split; [vm_compute; reflexivity|].
  eexists. split; [|vm_compute; reflexivity]. vm_compute. reflexivity.
Qed.

(** Past a drawdown limit, the instance is untouched and the drawdown
    message is returned exactly when the two earlier gates let the call
    through. *)
Lemma drawdown_gate_after_early_gates (self : StandardBot)
  (signal : Signal.t) (u w : Q) (now : string) :
  ~ initial_capital self == 0 ->
  max_dd self < drawdown self ->
  fst (trade self signal u w now) = self
  /\ (passes_early_gates self ->
      snd (trade self signal u w now)
      = Ok (DrawdownLimitExceeded (drawdown self) (max_dd self)))
  /\ ((exists dd limit,
         snd (trade self signal u w now)
         = Ok (DrawdownLimitExceeded dd limit)) ->
      passes_early_gates self).
Proof.
  intros Hi Hdd.
  unfold trade, passes_early_gates, daily_return_ratio.
  rewrite guarded_div, (py_div_Ok _ _ Hi).
  fold (drawdown self).
  apply Qltb_true in Hdd. rewrite Hdd.
  destruct (max_trades_daily self <=? trades_today self)%Z eqn:E1; simpl.
  { props. repeat split; [lia | | | ]; intros; try lia;
      destruct H as [? [? H]]; discriminate. }
  set (r := if Qltb 0 (capital self)
            then daily_profit self / capital self else 0).
  destruct (Qle_bool (target_return self) r) eqn:E2; simpl.
  - destruct (Qltb r (max_target_return self)) eqn:E3; simpl.
    + props. repeat split; intros; try lra;
        destruct H as [? [? H]]; discriminate.
    + props. assert (E4 : Qle_bool (max_target_return self) r = true)
        by (apply Qle_bool_iff; assumption).
      rewrite E4. simpl. repeat split; intros; try lra;
        destruct H as [? [? H]]; discriminate.
  - destruct (Qle_bool (max_target_return self) r) eqn:E3; simpl.
    + props. repeat split; intros; try lra;
        destruct H as [? [? H]]; discriminate.
    + props. repeat split; auto; lia.
Qed.

(** The messages of the two gates that come before the drawdown check,
    lines 124-134: they depend on the trade count and the daily return
    ratio alone. *)
Lemma early_gate_messages (self : StandardBot) (signal : Signal.t) (u w : Q)
  (now : string) :
  let r := daily_return_ratio self in
  ((max_trades_daily self <= trades_today self)%Z ->
   snd (trade self signal u w now) = Ok DailyLimitReached)
  /\ ((trades_today self < max_trades_daily self)%Z ->
      target_return self <= r -> r < max_target_return self ->
      snd (trade self signal u w now)
      = Ok (MinimumTargetAchieved r (max_target_return self)))
  /\ ((trades_today self < max_trades_daily self)%Z ->
      max_target_return self <= r ->
      snd (trade self signal u w now) = Ok (MaximumTargetAchieved r)).
Proof.
  intro r. unfold trade. rewrite guarded_div. cbv beta iota zeta.
  fold (daily_return_ratio self). fold r.
  split; [|split].
  - intro H. apply Z.leb_le in H. now rewrite H.
  - intros Hlt H1 H2. apply Z.leb_gt in Hlt.
    apply Qle_bool_iff in H1. apply Qltb_true in H2.
    now rewrite Hlt, H1, H2.
  - intros Hlt H. apply Z.leb_gt in Hlt.
    assert (H2 : Qltb r (max_target_return self) = false)
      by now apply Qltb_false.
    apply Qle_bool_iff in H.
    rewrite Hlt, H2, H, andb_false_r. reflexivity.
Qed.

(** C4 (amended).  When the drawdown exceeds [max_drawdown], [trade] never
    changes the instance, whatever the signal; the message is the
    drawdown-limit one exactly when neither earlier gate fires, that is
    when [trades_today < max_daily_trades] and the daily return ratio is
    below [target_return] and [max_target_return].  Otherwise the message
    is that of the earlier gate: the daily-trade-limit one when
    [trades_today >= max_daily_trades]; else the maximum-target one when
    the ratio has reached [max_target_return]; else the minimum-target
    one (the ratio has then reached [target_return]). *)
Theorem C4_drawdown_gate (self : StandardBot) (signal : Signal.t) (u w : Q)
  (now : string) :
  ~ initial_capital self == 0 ->
  max_dd self < drawdown self ->
  fst (trade self signal u w now) = self
  /\ (passes_early_gates self ->
      snd (trade self signal u w now)
      = Ok (DrawdownLimitExceeded (drawdown self) (max_dd self)))
  /\ ((exists dd limit,
         snd (trade self signal u w now)
         = Ok (DrawdownLimitExceeded dd limit)) ->
      passes_early_gates self)
  /\ (~ passes_early_gates self ->
      snd (trade self signal u w now)
      = Ok (if (max_trades_daily self <=? trades_today self)%Z
            then DailyLimitReached
            else if Qle_bool (max_target_return self)
                      (daily_return_ratio self)
                 then MaximumTargetAchieved (daily_return_ratio self)
                 else MinimumTargetAchieved (daily_return_ratio self)
                        (max_target_return self))).
Proof.
  intros Hi Hdd.
  destruct (drawdown_gate_after_early_gates self signal u w now Hi Hdd)
    as [Hs [Hm Hconv]].
  split; [exact Hs|]. split; [exact Hm|]. split; [exact Hconv|].
  intro Hnot.
  destruct (early_gate_messages self signal u w now) as [Hlim [Hmin Hmax]].
  cbv zeta in Hmin, Hmax.
  destruct (max_trades_daily self <=? trades_today self)%Z eqn:E1.
  - apply Hlim. now apply Z.leb_le.
  - apply Z.leb_gt in E1.
    destruct (Qle_bool (max_target_return self) (daily_return_ratio self))
      eqn:E2.
    + apply Hmax; [exact E1 | now apply Qle_bool_iff].
    + apply Qle_bool_false in E2.
      apply Hmin; [exact E1 | | exact E2].
      destruct (Qlt_le_dec (daily_return_ratio self) (target_return self))
        as [Hlt|Hle]; [|exact Hle].
      exfalso. apply Hnot. repeat split; assumption.
Qed.

(** The three earlier messages, on the drawdown example of section 8. *)
Example drawdown_example_earlier_messages :
  snd (trade bot_in_drawdown_at_limit scenario_signal 0.5 0.5 "t")
  = Ok DailyLimitReached
  /\ snd (trade bot_in_drawdown_on_target scenario_signal 0.5 0.5 "t")
     = Ok (MinimumTargetAchieved
             (daily_return_ratio bot_in_drawdown_on_target) 0.05)
  /\ snd (trade (set_daily_profit bot_in_drawdown 47) scenario_signal
            0.5 0.5 "t")
     = Ok (MaximumTargetAchieved
             (daily_return_ratio (set_daily_profit bot_in_drawdown 47))).
Proof. repeat split. Qed.

Lemma C4_witness :
  (~ initial_capital bot_in_drawdown == 0)
  /\ max_dd bot_in_drawdown < drawdown bot_in_drawdown
  /\ trade bot_in_drawdown scenario_signal 0.5 0.5 "t"
     = (bot_in_drawdown,
        Ok (DrawdownLimitExceeded (drawdown bot_in_drawdown) 0.05))
  /\ ~ passes_early_gates bot_in_drawdown_at_limit
  /\ snd (trade bot_in_drawdown_at_limit scenario_signal 0.5 0.5 "t")
     = Ok DailyLimitReached.
Proof.
  assert (Hi : ~ initial_capital bot_in_drawdown == 0)
    by (vm_compute; discriminate).
  assert (Hd : max_dd bot_in_drawdown < drawdown bot_in_drawdown)
    by (vm_compute; reflexivity).
  destruct (C4_drawdown_gate bot_in_drawdown scenario_signal 0.5 0.5 "t"
              Hi Hd) as [Hs [Hm _]].
  split; [exact Hi|]. split; [exact Hd|]. split.
  - rewrite (surjective_pairing (trade _ _ _ _ _)), Hs, Hm; [reflexivity|].
    repeat split; vm_compute; reflexivity.
  - assert (Hn : ~ passes_early_gates bot_in_drawdown_at_limit)
      by (intros [H _]; vm_compute in H; discriminate).
    split; [exact Hn|].
    exact (proj2 (proj2 (proj2
             (C4_drawdown_gate bot_in_drawdown_at_limit scenario_signal
                0.5 0.5 "t" Hi Hd))) Hn).
Defined.

(** ** The signal filter *)

(** The [regime_requirements] dictionary holds the table of section 4.2. *)
Lemma regime_requirements_table (regime : string) :
  let req := dict_get regime_requirements regime (RegimeReq.mk 0.6 0.35) in
  RegimeReq.min_score req == fst (spec_thresholds true regime)
  /\ RegimeReq.min_trend req == snd (spec_thresholds true regime).
Proof.
  cbv [regime_requirements spec_thresholds dict_get negb]. cbv zeta.
  rewrite !(String.eqb_sym regime).
  repeat match goal with
  | |- context [String.eqb ?k regime] => destruct (String.eqb k regime)
  end; split; reflexivity.
Qed.

Lemma check_trade_conditions_spec (self : StandardBot) (signal : Signal.t) :
  check_trade_conditions self signal = true <-> seven_predicates self signal.
Proof.
  unfold check_trade_conditions, seven_predicates.
  destruct (regime_requirements_table
              (get (Signal.regime signal) "unknown"%string)) as [Hs Ht].
  set (req := dict_get regime_requirements _ _) in *.
  set (spec := spec_thresholds true _) in *.
  destruct (regime_adaptation self); cbv beta iota zeta; cbv [forallb];
    rewrite !andb_true_iff, !Qltb_true, Qle_bool_iff.
  - fold spec.
    split; intros H; decompose [and] H; clear H; repeat split;
      try assumption; lra.
  - cbv [spec_thresholds negb fst snd].
    split; intros H; decompose [and] H; clear H; repeat split;
      try assumption; lra.
Qed.

(** C5.  [check_trade_conditions] returns true exactly when the seven
    predicates hold, with the regime thresholds of the table (0.6 and 0.35
    for an unlisted regime or when adaptation is off) and the documented
    defaults for absent keys; of the instance it reads only the two
    configuration values [confidence_threshold] and [regime_adaptation],
    and it returns a boolean without touching the instance. *)
Theorem C5_filter_is_the_seven_predicates (self other : StandardBot)
  (signal : Signal.t) :
  (check_trade_conditions self signal = true
   <-> seven_predicates self signal)
  /\ (confidence_threshold other = confidence_threshold self ->
      regime_adaptation other = regime_adaptation self ->
      check_trade_conditions other signal
      = check_trade_conditions self signal).
Proof.
  split; [apply check_trade_conditions_spec|].
  intros H1 H2. unfold check_trade_conditions. now rewrite H1, H2.
Qed.

Lemma C5_witness :
  seven_predicates bot_10000 scenario_signal
  /\ check_trade_conditions bot_in_drawdown_at_limit scenario_signal
     = check_trade_conditions bot_10000 scenario_signal.
Proof.
  destruct (C5_filter_is_the_seven_predicates bot_10000
              bot_in_drawdown_at_limit scenario_signal) as [Hiff Hsame].
  split.
  - apply Hiff. vm_compute. reflexivity.
  - apply Hsame; reflexivity.
Defined.

(** ** The reporter *)

(** C6.  [reset_daily_stats] never raises and always leaves
    [daily_profit = 0] and [trades_today = 0], whatever the capital.  A
    second call right after the first appends exactly one entry when the
    capital is positive, with return 0, profit 0 and no trades, and none
    otherwise. *)
Theorem C6_reset_twice (self : StandardBot) (d1 d2 : string) :
  let once := fst (reset_daily_stats self d1) in
  let twice := fst (reset_daily_stats once d2) in
  snd (reset_daily_stats self d1) = Ok tt
  /\ snd (reset_daily_stats once d2) = Ok tt
  /\ daily_profit once = 0 /\ trades_today once = 0%Z
  /\ daily_profit twice = 0 /\ trades_today twice = 0%Z
  /\ (0 < capital self ->
      exists r,
        r == 0
        /\ daily_pnl_history twice
           = daily_pnl_history once ++ [DailySummary.mk d2 r 0 0%Z])
  /\ (capital self <= 0 ->
      daily_pnl_history twice = daily_pnl_history once)
  /\ (List.length (daily_pnl_history twice)
      <= S (List.length (daily_pnl_history once)))%nat.
Proof.
  unfold reset_daily_stats.
  destruct (Qltb 0 (capital self)) eqn:E.
  - assert (Hc : ~ capital self == 0) by (props; lra).
    rewrite (py_div_Ok _ _ Hc). simpl. rewrite E.
    rewrite (py_div_Ok _ _ Hc). simpl.
    repeat split; try reflexivity.
    + intros _. eexists. split; [|reflexivity].
      unfold Qdiv. apply Qmult_0_l.
    + intro H. props. lra.
    + rewrite length_app. simpl. lia.
  - simpl. rewrite E. simpl.
    repeat split; try reflexivity.
    + intro H. props. lra.
    + lia.
Qed.

Lemma C6_witness :
  0 < capital bot_near_target
  /\ exists r,
       r == 0
       /\ daily_pnl_history
            (fst (reset_daily_stats
                    (fst (reset_daily_stats bot_near_target "d1")) "d2"))
          = daily_pnl_history (fst (reset_daily_stats bot_near_target "d1"))
            ++ [DailySummary.mk "d2" r 0 0%Z].
Proof.
  assert (Hc : 0 < capital bot_near_target) by (vm_compute; reflexivity).
  split; [exact Hc|].
  destruct (C6_reset_twice bot_near_target "d1" "d2")
    as [_ [_ [_ [_ [_ [_ [H _]]]]]]].
  exact (H Hc).
Defined.

Lemma recent_trades_last_30 (history : list TradeRecord.t) :
  recent_trades history = last_entries 30 history.
Proof.
  unfold recent_trades, last_entries.
  destruct (30 <=? List.length history)%nat eqn:E.
  - rewrite firstn_rev, rev_involutive. reflexivity.
  - apply Nat.leb_gt in E.
    rewrite firstn_all2 by (rewrite length_rev; lia).
    now rewrite rev_involutive.
Qed.

Lemma wins_count (l : list TradeRecord.t) :
  List.length (filter (fun t => trade_type_eqb (TradeRecord.type t) WIN) l)
  = count_wins l.
Proof.
  induction l as [|t l IH]; simpl; [reflexivity|].
  destruct (TradeRecord.type t); simpl; congruence.
Qed.

Lemma of_nat_length_nonzero {A : Type} (l : list A) :
  nonempty l = true -> ~ of_nat (List.length l) == 0.
Proof.
  destruct l; [discriminate|]. intros _.
  unfold of_nat, Qeq. simpl. lia.
Qed.

Lemma recent_trades_nonempty (history : list TradeRecord.t) :
  nonempty (recent_trades history) = nonempty history.
Proof.
  unfold recent_trades.
  destruct (30 <=? List.length history)%nat eqn:E; [|reflexivity].
  apply Nat.leb_le in E.
  assert (H : List.length (skipn (List.length history - 30) history) = 30%nat)
    by (rewrite length_skipn; lia).
  destruct history; [simpl in E; lia|].
  destruct (skipn _ _); [discriminate|reflexivity].
Qed.

(** A division by the length of a list, guarded by the list's truth value,
    never raises. *)
Lemma nonempty_div {A : Type} (a : Q) (l : list A) :
  (if nonempty l then py_div a (of_nat (List.length l)) else Ok 0)
  = Ok (if nonempty l then a / of_nat (List.length l) else 0).
Proof.
  destruct (nonempty l) eqn:E; [|reflexivity].
  apply py_div_Ok. now apply of_nat_length_nonzero.
Qed.

Lemma target_progress_Ok (r t : Q) :
  (if Qltb 0 t then ratio <- py_div r t ;; Ok (ratio * 100) else Ok 0)
  = Ok (if Qltb 0 t then r / t * 100 else 0).
Proof.
  destruct (Qltb 0 t) eqn:E; [|reflexivity].
  rewrite py_div_Ok by (props; lra). reflexivity.
Qed.

(** C8.  [get_status] leaves the instance untouched and never raises.  Its
    win rate is 0 over an empty [trade_history]; otherwise it is the number
    of WIN records among the last 30 entries (all of them when there are
    fewer) divided by the number of those entries. *)
Theorem C8_status_win_rate (self : StandardBot) (now : string) :
  fst (get_status self now) = self
  /\ exists status,
       snd (get_status self now) = Ok status
       /\ (trade_history self = [] -> Status.win_rate status = 0)
       /\ (trade_history self <> [] ->
           Status.win_rate status
           = of_nat (count_wins (last_entries 30 (trade_history self)))
             / of_nat (List.length (last_entries 30 (trade_history self)))).
Proof.
  split; [reflexivity|].
  unfold get_status. simpl snd.
  rewrite !guarded_div. simpl bind.
  rewrite !nonempty_div. simpl bind.
  rewrite target_progress_Ok. simpl bind.
  eexists. split; [reflexivity|]. simpl Status.win_rate.
  rewrite wins_count, recent_trades_nonempty, recent_trades_last_30.
  destruct (trade_history self) as [|t h]; simpl nonempty.
  - split; [reflexivity | intro H; now contradiction H].
  - split; [discriminate | reflexivity].
Qed.

Lemma C8_witness :
  exists status,
    snd (get_status bot_10000 "t") = Ok status
    /\ Status.win_rate status = 0.
Proof.
  destruct (C8_status_win_rate bot_10000 "t") as [_ [status [Hs [He _]]]].
  exists status. split; [exact Hs|]. apply He. reflexivity.
Defined.

(** ** The constructor *)

(** C9 as stated fails: the constructor accepts the capital -100. *)
Lemma C9_counterexample :
  ~ 0 < -100
  /\ init (-100) Kwargs.empty
     = Ok (mkBot (-100) (-100) 0.02 0.05 0.05 0 0.01 0.03 0 12 0.045 0.035
             true 0.65 true [] [] 0 0 (-100)).
Proof.
  split; [intro H; vm_compute in H; discriminate | reflexivity].
Qed.

(** C9 (amended).  Construction succeeds for every starting capital,
    positive or not: [capital], [initial_capital] and [peak_capital] equal
    the given amount, each option takes its keyword value or else its
    documented default, and the counters and histories start empty. *)
Theorem C9_construction_always_succeeds (capital0 : Q) (kwargs : Kwargs.t) :
  exists self,
    init capital0 kwargs = Ok self
    /\ capital self = capital0
    /\ initial_capital self = capital0
    /\ peak_capital self = capital0
    /\ target_return self = get (Kwargs.target_return kwargs) 0.02
    /\ max_target_return self = get (Kwargs.max_target_return kwargs) 0.05
    /\ max_dd self = get (Kwargs.max_drawdown kwargs) 0.05
    /\ stop_loss self = get (Kwargs.stop_loss kwargs) 0.01
    /\ max_risk_per_trade self = get (Kwargs.max_risk kwargs) 0.03
    /\ max_trades_daily self = get (Kwargs.max_daily_trades kwargs) 12%Z
    /\ use_ai_sizing self = get (Kwargs.adaptive_sizing kwargs) true
    /\ confidence_threshold self
       = get (Kwargs.confidence_threshold kwargs) 0.65
    /\ regime_adaptation self = get (Kwargs.regime_adaptation kwargs) true
    /\ daily_profit self = 0 /\ trades_today self = 0%Z
    /\ trade_history self = [] /\ daily_pnl_history self = [].
Proof.
  eexists. split; [reflexivity|]. simpl. repeat split.
Qed.

(** ** The momentum key *)

(** C10.  Two signals that differ only in ['momentum'] get the same filter
    verdict, position size and success probability, and, on the same draws
    and clock, the same message and the same updated instance from
    [trade]. *)
Theorem C10_momentum_is_ignored (self : StandardBot) (s1 s2 : Signal.t)
  (u w : Q) (now : string) :
  same_but_momentum s1 s2 ->
  check_trade_conditions self s1 = check_trade_conditions self s2
  /\ calculate_position_size self s1 = calculate_position_size self s2
  /\ success_probability s1 = success_probability s2
  /\ trade self s1 u w now = trade self s2 u w now.
Proof.
  destruct s1, s2. unfold same_but_momentum. simpl.
  intros [-> [-> [-> [-> [-> [-> [-> [-> [-> [-> ->]]]]]]]]]].
  repeat split.
Qed.

Lemma C10_witness :
  same_but_momentum scenario_signal scenario_signal_with_momentum
  /\ trade bot_10000 scenario_signal 0.5 0.5 "t"
     = trade bot_10000 scenario_signal_with_momentum 0.5 0.5 "t".
Proof.
  assert (H : same_but_momentum scenario_signal
                scenario_signal_with_momentum)
    by (repeat split).
  split; [exact H|].
  exact (proj2 (proj2 (proj2
    (C10_momentum_is_ignored bot_10000 _ _ 0.5 0.5 "t" H)))).
Defined.

(** ** The high-water mark [peak_capital] *)

Lemma regime_loss_adj_positive (regime : string) :
  0 < dict_get regime_loss_adj regime 1.0.
Proof.
  cbv [regime_loss_adj dict_get].
  repeat match goal with
  | |- context [String.eqb ?k regime] => destruct (String.eqb k regime)
  end; reflexivity.
Qed.

(** What a call of [trade] does to the instance: nothing, the assignments
    of the winning branch, or those of the losing branch. *)
Lemma trade_state (self : StandardBot) (signal : Signal.t) (u w : Q)
  (now : string) :
  fst (trade self signal u w now) = self
  \/ exists position_size,
       calculate_position_size self signal = Ok position_size
       /\ (fst (trade self signal u w now)
           = fst (trade_win self signal position_size w now)
           \/ fst (trade self signal u w now)
              = fst (trade_loss self signal position_size now)).
Proof.
  unfold trade.
  destruct (max_trades_daily self <=? trades_today self)%Z; [now left|].
  rewrite guarded_div.
  destruct (_ && _); [now left|].
  destruct (Qle_bool (max_target_return self) _); [now left|].
  destruct (py_div _ _); [|now left].
  destruct (Qltb (max_dd self) a); [now left|].
  destruct (negb _); [now left|].
  destruct (calculate_position_size self signal) as [p|]; [|now left].
  right. exists p. split; [reflexivity|].
  destruct (Qltb u _); auto.
Qed.

Lemma trade_win_state (self : StandardBot) (signal : Signal.t)
  (position_size w : Q) (now : string) :
  let self' := fst (trade_win self signal position_size w now) in
  initial_capital self' = initial_capital self
  /\ stop_loss self' = stop_loss self
  /\ peak_capital self <= peak_capital self'
  /\ capital self' <= peak_capital self'
  /\ exists r,
       trade_history self' = trade_history self ++ [r]
       /\ TradeRecord.type r = WIN.
Proof.
  unfold trade_win. cbv zeta. simpl fst.
  set (profit := position_size * _).
  simpl.
  destruct (Qltb (peak_capital self) (capital self + profit)) eqn:E; simpl;
    props; repeat split; try lra; eexists; split; reflexivity.
Qed.

Lemma trade_loss_state (self : StandardBot) (signal : Signal.t)
  (position_size : Q) (now : string) :
  let self' := fst (trade_loss self signal position_size now) in
  let regime := get (Signal.regime signal) "unknown"%string in
  initial_capital self' = initial_capital self
  /\ stop_loss self' = stop_loss self
  /\ peak_capital self' = peak_capital self
  /\ capital self'
     = capital self
       - position_size
         * py_min 0.025 (stop_loss self * dict_get regime_loss_adj regime 1.0)
  /\ exists r,
       trade_history self' = trade_history self ++ [r]
       /\ TradeRecord.type r = LOSS.
Proof.
  unfold trade_loss. cbv zeta. simpl.
  repeat split. eexists. split; reflexivity.
Qed.

Lemma reset_daily_stats_state (self : StandardBot) (today : string) :
  let self' := fst (reset_daily_stats self today) in
  initial_capital self' = initial_capital self
  /\ stop_loss self' = stop_loss self
  /\ peak_capital self' = peak_capital self
  /\ capital self' = capital self
  /\ trade_history self' = trade_history self.
Proof.
  unfold reset_daily_stats.
  destruct (Qltb 0 (capital self)); [destruct (py_div _ _)|]; simpl;
    repeat split.
Qed.

(** The loss of the losing branch is never negative when the stop loss is
    not, unless the capital is negative, and then the capital stays
    negative. *)
Lemma loss_keeps_capital_under_peak (self : StandardBot) (signal : Signal.t)
  (position_size : Q) (regime : string) :
  calculate_position_size self signal = Ok position_size ->
  0 <= stop_loss self ->
  0 <= peak_capital self ->
  capital self <= peak_capital self ->
  capital self
  - position_size
    * py_min 0.025 (stop_loss self * dict_get regime_loss_adj regime 1.0)
  <= peak_capital self.
Proof.
  intros Hp Hs Hpeak Hc.
  destruct (calculate_position_size_clamped _ _ _ Hp) as [x ->].
  pose proof (regime_loss_adj_positive regime) as Hadj.
  set (adj := dict_get regime_loss_adj regime 1.0) in *.
  assert (Hprod : 0 <= stop_loss self * adj)
    by (apply Qmult_le_0_compat; lra).
  set (pct := py_min 0.025 (stop_loss self * adj)).
  assert (Hpct : 0 <= pct /\ pct <= 0.025).
  { unfold pct.
    destruct (py_min_cases 0.025 (stop_loss self * adj)) as [[? ->]|[? ->]];
      lra. }
  set (c := capital self) in *.
  destruct (Qlt_le_dec c 0) as [Hneg|Hpos].
  - destruct (py_max_cases (py_min x (c * 0.04)) (c * 0.005))
      as [[_ ->]|[Habs _]].
    + nra.
    + pose proof (py_min_upper x (c * 0.04)). lra.
  - pose proof (py_max_lower (py_min x (c * 0.04)) (c * 0.005)) as [_ Hlow].
    set (size := py_max _ _) in *.
    assert (0 <= size * pct) by (apply Qmult_le_0_compat; lra).
    lra.
Qed.

Lemma run_keeps_configuration (self : StandardBot) (o : op) :
  initial_capital (run self o) = initial_capital self
  /\ stop_loss (run self o) = stop_loss self.
Proof.
  destruct o as [signal u w now|today|now]; simpl.
  - destruct (trade_state self signal u w now) as [->|[p [_ [->| ->]]]].
    + auto.
    + pose proof (trade_win_state self signal p w now). cbv zeta in *. tauto.
    + pose proof (trade_loss_state self signal p now). cbv zeta in *. tauto.
  - pose proof (reset_daily_stats_state self today). cbv zeta in *. tauto.
  - auto.
Qed.

Lemma run_peak_monotone (self : StandardBot) (o : op) :
  peak_capital self <= peak_capital (run self o).
Proof.
  destruct o as [signal u w now|today|now]; simpl.
  - destruct (trade_state self signal u w now) as [->|[p [_ [->| ->]]]].
    + lra.
    + pose proof (trade_win_state self signal p w now). cbv zeta in *. tauto.
    + pose proof (trade_loss_state self signal p now) as H. cbv zeta in H.
      destruct H as [_ [_ [-> _]]]. lra.
  - pose proof (reset_daily_stats_state self today) as H. cbv zeta in H.
    destruct H as [_ [_ [-> _]]]. lra.
  - lra.
Qed.

Lemma run_peak_rises_on_win_only (self : StandardBot) (o : op) :
  peak_capital self < peak_capital (run self o) ->
  exists signal u w now r,
    o = Trade signal u w now
    /\ trade_history (run self o) = trade_history self ++ [r]
    /\ TradeRecord.type r = WIN.
Proof.
  destruct o as [signal u w now|today|now]; simpl.
  - destruct (trade_state self signal u w now) as [->|[p [_ [->| ->]]]].
    + intro H. lra.
    + intros _.
      pose proof (trade_win_state self signal p w now) as H. cbv zeta in H.
      destruct H as [_ [_ [_ [_ [r [Hh Hr]]]]]].
      exists signal, u, w, now, r. auto.
    + pose proof (trade_loss_state self signal p now) as H. cbv zeta in H.
      destruct H as [_ [_ [-> _]]]. intro H. lra.
  - pose proof (reset_daily_stats_state self today) as H. cbv zeta in H.
    destruct H as [_ [_ [-> _]]]. intro H. lra.
  - intro H. lra.
Qed.

Lemma run_keeps_capital_under_peak (self : StandardBot) (o : op) :
  0 <= initial_capital self ->
  0 <= stop_loss self ->
  initial_capital self <= peak_capital self ->
  capital self <= peak_capital self ->
  capital (run self o) <= peak_capital (run self o).
Proof.
  intros Hi Hs Hip Hc.
  destruct o as [signal u w now|today|now]; simpl.
  - destruct (trade_state self signal u w now) as [->|[p [Hp [->| ->]]]].
    + exact Hc.
    + pose proof (trade_win_state self signal p w now). cbv zeta in *. tauto.
    + pose proof (trade_loss_state self signal p now) as H. cbv zeta in H.
      destruct H as [_ [_ [-> [-> _]]]].
      apply (loss_keeps_capital_under_peak self signal); auto. lra.
  - pose proof (reset_daily_stats_state self today) as H. cbv zeta in H.
    destruct H as [_ [_ [-> [-> _]]]]. exact Hc.
  - exact Hc.
Qed.

Section Reachable.

Variable capital0 : Q.
Variable kwargs : Kwargs.t.

(** No operation assigns [initial_capital] or [stop_loss]. *)
Lemma reachable_configuration (self : StandardBot) :
  reachable capital0 kwargs self ->
  initial_capital self = capital0
  /\ stop_loss self = get (Kwargs.stop_loss kwargs) 0.01.
Proof.
  induction 1 as [self H|self o _ [IHi IHs] _].
  - injection H as <-. auto.
  - destruct (run_keeps_configuration self o) as [-> ->]. auto.
Qed.

Lemma reachable_peak_above_initial (self : StandardBot) :
  reachable capital0 kwargs self ->
  initial_capital self <= peak_capital self.
Proof.
  induction 1 as [self H|self o _ IH _].
  - injection H as <-. simpl. lra.
  - destruct (run_keeps_configuration self o) as [-> _].
    pose proof (run_peak_monotone self o). lra.
Qed.

Hypothesis capital0_nonneg : 0 <= capital0.
Hypothesis stop_loss_nonneg : 0 <= get (Kwargs.stop_loss kwargs) 0.01.

Lemma reachable_capital_under_peak (self : StandardBot) :
  reachable capital0 kwargs self ->
  capital self <= peak_capital self.
Proof.
  induction 1 as [self H|self o Hr IH _].
  - injection H as <-. simpl. lra.
  - destruct (reachable_configuration _ Hr) as [Hi Hsl].
    apply run_keeps_capital_under_peak; try assumption.
    + now rewrite Hi.
    + now rewrite Hsl.
    + now apply reachable_peak_above_initial.
Qed.

End Reachable.

(** Without the hypothesis on the capital the invariant fails too:
    [StandardBot(-100)] sizes its position at [0.005 * capital < 0], and a
    losing trade then adds to the capital. *)
Example negative_capital_rises_over_peak :
  init (-100) Kwargs.empty = Ok bot_negative
  /\ peak_capital (run bot_negative losing_trade)
     < capital (run bot_negative losing_trade).
Proof. split; [reflexivity | vm_compute; reflexivity]. Qed.

(** C7 as stated fails: [StandardBot(10000, stop_loss=-0.01)] after one
    losing trade has a capital above its peak, because a negative stop loss
    makes the "loss" a gain and the losing branch never moves the peak. *)
Lemma C7_counterexample :
  reachable 10000 kwargs_negative_stop (run bot_negative_stop losing_trade)
  /\ peak_capital (run bot_negative_stop losing_trade)
     < capital (run bot_negative_stop losing_trade).
Proof.
  split.
  - apply reachable_run; [apply reachable_init; reflexivity|].
    repeat split; vm_compute; congruence.
  - vm_compute. reflexivity.
Qed.

(** C7 (amended).  In every reachable state [peak_capital >=
    initial_capital]; [peak_capital >= capital] in every state reachable
    from a construction with non-negative capital and non-negative
    [stop_loss]; and from any state, every operation leaves [peak_capital]
    where it was or raises it, raising it only when the operation is a
    trade that appends a WIN record. *)
Theorem C7_peak_capital :
  (forall capital0 kwargs self,
     reachable capital0 kwargs self ->
     initial_capital self <= peak_capital self
     /\ (0 <= capital0 ->
         0 <= get (Kwargs.stop_loss kwargs) 0.01 ->
         capital self <= peak_capital self))
  /\ (forall self o,
        peak_capital self <= peak_capital (run self o)
        /\ (peak_capital self < peak_capital (run self o) ->
            exists signal u w now r,
              o = Trade signal u w now
              /\ trade_history (run self o) = trade_history self ++ [r]
              /\ TradeRecord.type r = WIN)).
Proof.
  split.
  - intros capital0 kwargs self Hr. split.
    + now apply (reachable_peak_above_initial capital0 kwargs).
    + intros Hc Hs.
      now apply (reachable_capital_under_peak capital0 kwargs Hc Hs).
  - intros self o. split.
    + apply run_peak_monotone.
    + apply run_peak_rises_on_win_only.
Qed.

Lemma C7_witness :
  reachable 10000 Kwargs.empty (run bot_10000 losing_trade)
  /\ capital (run bot_10000 losing_trade)
     <= peak_capital (run bot_10000 losing_trade).
Proof.
  assert (Hr : reachable 10000 Kwargs.empty (run bot_10000 losing_trade)).
  { apply reachable_run; [apply reachable_init; reflexivity|].
    repeat split; vm_compute; congruence. }
  split; [exact Hr|].
  apply (proj1 C7_peak_capital 10000 Kwargs.empty _ Hr).
  - vm_compute. discriminate.
  - vm_compute. discriminate.
Defined.

(** * Further properties of the trade executor *)

Lemma early_gates_pass (self : StandardBot) :
  passes_early_gates self ->
  (max_trades_daily self <=? trades_today self)%Z = false
  /\ Qle_bool (target_return self) (daily_return_ratio self) = false
  /\ Qle_bool (max_target_return self) (daily_return_ratio self) = false.
Proof.
  intros [H1 [H2 H3]]. repeat split.
  - now apply Z.leb_gt.
  - now apply Qle_bool_false.
  - now apply Qle_bool_false.
Qed.

(** A call that passes every gate and gets a size from the sizer makes the
    assignments of one of the two branches, chosen by the draw [u]. *)
Lemma trade_executes (self : StandardBot) (signal : Signal.t)
  (position_size u w : Q) (now : string) :
  all_gates_pass self signal ->
  calculate_position_size self signal = Ok position_size ->
  fst (trade self signal u w now)
  = after_trade self (executed_record self signal position_size u w now).
Proof.
  intros [Hg [Hi [Hd Hf]]] Hp.
  destruct (early_gates_pass self Hg) as [E1 [E2 E3]].
  unfold daily_return_ratio in E2, E3.
  unfold trade. rewrite E1, guarded_div. cbv beta iota zeta.
  rewrite E2, E3, (py_div_Ok _ _ Hi). fold (drawdown self).
  apply Qltb_false in Hd. rewrite Hd, Hf, Hp.
  cbv beta iota zeta delta [andb negb].
  unfold executed_record.
  destruct (Qltb u (success_probability signal)); [|reflexivity].
  unfold trade_win, after_trade, signed_amount, py_max, win_pct.
  cbv zeta. simpl.
  destruct (Qltb (peak_capital self) _); reflexivity.
Qed.

(** Conversely, a call either leaves the instance as it was or passed
    every gate and executed. *)
Lemma trade_effect (self : StandardBot) (signal : Signal.t) (u w : Q)
  (now : string) :
  fst (trade self signal u w now) = self
  \/ exists position_size,
       all_gates_pass self signal
       /\ calculate_position_size self signal = Ok position_size
       /\ fst (trade self signal u w now)
          = after_trade self
              (executed_record self signal position_size u w now).
Proof.
  destruct (max_trades_daily self <=? trades_today self)%Z eqn:E1.
  { left. unfold trade. now rewrite E1. }
  destruct (Qle_bool (target_return self) (daily_return_ratio self)) eqn:E2.
  { left. unfold trade, daily_return_ratio in *.
    rewrite E1, guarded_div, E2. simpl.
    destruct (Qltb _ (max_target_return self)) eqn:E3; [reflexivity|].
    props. apply Qle_bool_iff in E3. now rewrite E3. }
  destruct (Qle_bool (max_target_return self) (daily_return_ratio self))
    eqn:E3.
  { left. unfold trade, daily_return_ratio in *.
    now rewrite E1, guarded_div, E2, E3. }
  destruct (Qeq_bool (initial_capital self) 0) eqn:E4.
  { left. unfold trade, daily_return_ratio in *.
    rewrite E1, guarded_div, E2, E3. unfold py_div. now rewrite E4. }
  destruct (Qltb (max_dd self) (drawdown self)) eqn:E5.
  { left. unfold trade, daily_return_ratio, drawdown in *.
    rewrite E1, guarded_div, E2, E3. unfold py_div. now rewrite E4, E5. }
  destruct (check_trade_conditions self signal) eqn:E6.
  2:{ left. unfold trade, daily_return_ratio, drawdown in *.
      rewrite E1, guarded_div, E2, E3. unfold py_div.
      now rewrite E4, E5, E6. }
  destruct (calculate_position_size self signal) as [p|e] eqn:E7.
  2:{ left. unfold trade, daily_return_ratio, drawdown in *.
      rewrite E1, guarded_div, E2, E3. unfold py_div.
      now rewrite E4, E5, E6, E7. }
  right. exists p.
  assert (Hg : all_gates_pass self signal).
  { props. repeat split; auto. }
  split; [exact Hg|]. split; [reflexivity|].
  now apply trade_executes.
Qed.

(** X1.  Whatever the signal, the success probability lies in
    [[0.50, 0.85]]: a draw below 0.5 always wins and a draw of 0.85 or more
    always loses. *)
Theorem X1_success_probability_bounds (signal : Signal.t) (u : Q) :
  (0.5 <= success_probability signal /\ success_probability signal <= 0.85)
  /\ (u < 0.5 -> Qltb u (success_probability signal) = true)
  /\ (0.85 <= u -> Qltb u (success_probability signal) = false).
Proof.
  unfold success_probability. cbv zeta.
  set (p := _ * dict_get regime_adjustments _ _).
  assert (H : 0.5 <= py_min 0.85 (py_max 0.50 p)
              /\ py_min 0.85 (py_max 0.50 p) <= 0.85).
  { pose proof (py_max_lower 0.50 p) as [Hl _].
    destruct (py_min_cases 0.85 (py_max 0.50 p)) as [[? ->]|[? ->]]; lra. }
  split; [exact H|]. split; intro Hu.
  - apply Qltb_true. lra.
  - apply Qltb_false. lra.
Qed.

Lemma X1_witness :
  0.85 <= 0.9 /\ Qltb 0.9 (success_probability scenario_signal) = false.
Proof.
  assert (H : 0.85 <= 0.9) by (vm_compute; discriminate).
  split; [exact H|].
  exact (proj2 (proj2 (X1_success_probability_bounds scenario_signal 0.9)) H).
Defined.

Lemma regime_profit_bonus_positive (regime : string) :
  0 < dict_get regime_profit_bonus regime 1.0.
Proof.
  cbv [regime_profit_bonus dict_get].
  repeat match goal with
  | |- context [String.eqb ?k regime] => destruct (String.eqb k regime)
  end; reflexivity.
Qed.

(** The profit percentage is capped at 4.5%, and is not negative when the
    draw is in [[0, 1)] and the confidence at least -4.5. *)
Lemma win_pct_bounds (signal : Signal.t) (w : Q) :
  win_pct signal w <= 0.045
  /\ (unit_draw w -> -4.5 <= get (Signal.ai_confidence signal) 0.5 ->
      0 <= win_pct signal w).
Proof.
  unfold win_pct, uniform. cbv zeta.
  set (c := get (Signal.ai_confidence signal) 0.5).
  pose proof (regime_profit_bonus_positive
                (get (Signal.regime signal) "unknown"%string)) as Hb.
  set (b := dict_get regime_profit_bonus _ _) in *.
  set (x := _ * b).
  split.
  - pose proof (py_min_upper 0.045 x). tauto.
  - intros [Hw0 Hw1] Hc.
    assert (Hx : 0 <= x).
    { unfold x. apply Qmult_le_0_compat; [|lra].
      apply Qmult_le_0_compat; lra. }
    destruct (py_min_cases 0.045 x) as [[? ->]|[? ->]]; lra.
Qed.

(** The loss percentage is capped at 2.5%, and is not negative when the
    stop loss is not. *)
Lemma loss_pct_bounds (self : StandardBot) (signal : Signal.t) :
  loss_pct self signal <= 0.025
  /\ (0 <= stop_loss self -> 0 <= loss_pct self signal).
Proof.
  unfold loss_pct. cbv zeta.
  pose proof (regime_loss_adj_positive
                (get (Signal.regime signal) "unknown"%string)) as Ha.
  set (a := dict_get regime_loss_adj _ _) in *.
  split.
  - pose proof (py_min_upper 0.025 (stop_loss self * a)). tauto.
  - intro Hs.
    assert (0 <= stop_loss self * a) by (apply Qmult_le_0_compat; lra).
    destruct (py_min_cases 0.025 (stop_loss self * a)) as [[? ->]|[? ->]];
      lra.
Qed.

Lemma position_size_bounds (self : StandardBot) (signal : Signal.t) (p : Q) :
  0 < capital self ->
  calculate_position_size self signal = Ok p ->
  capital self * 0.005 <= p /\ p <= capital self * 0.04.
Proof.
  intros Hc Hp.
  destruct (calculate_position_size_clamped _ _ _ Hp) as [x ->].
  apply clamp_within. lra.
Qed.

Lemma filter_checks_confidence (self : StandardBot) (signal : Signal.t) :
  check_trade_conditions self signal = true ->
  confidence_threshold self <= get (Signal.ai_confidence signal) 0.5.
Proof.
  intro H. apply check_trade_conditions_spec in H.
  unfold seven_predicates in H. cbv zeta in H. tauto.
Qed.

Lemma product_bounds (p pct c k : Q) :
  0 <= p -> p <= c -> 0 <= pct -> pct <= k ->
  0 <= p * pct /\ p * pct <= c * k.
Proof.
  intros Hp Hpc Hpct Hk. split.
  - now apply Qmult_le_0_compat.
  - apply Qle_trans with (c * pct).
    + apply Qmult_le_compat_r; assumption.
    + rewrite !(Qmult_comm c). apply Qmult_le_compat_r; lra.
Qed.

(** The capital after an executed trade, for a positive capital: it loses
    at most 0.1% and, unless the configuration makes a win negative or a
    loss a gain, gains at most 0.18%. *)
Lemma executed_capital_bounds (self : StandardBot) (signal : Signal.t)
  (p u w : Q) (now : string) :
  0 < capital self ->
  -4.5 <= confidence_threshold self ->
  unit_draw w ->
  check_trade_conditions self signal = true ->
  calculate_position_size self signal = Ok p ->
  let amount := signed_amount (executed_record self signal p u w now) in
  - (0.001 * capital self) <= amount
  /\ (0 <= stop_loss self -> amount <= 0.0018 * capital self).
Proof.
  intros Hc Ht Hw Hf Hp.
  destruct (position_size_bounds self signal p Hc Hp) as [Hlo Hhi].
  pose proof (filter_checks_confidence self signal Hf) as Hconf.
  destruct (win_pct_bounds signal w) as [Hwu Hwl].
  assert (Hw0 : 0 <= win_pct signal w) by (apply Hwl; [assumption | lra]).
  destruct (loss_pct_bounds self signal) as [Hlu Hll].
  unfold executed_record. cbv zeta.
  destruct (Qltb u (success_probability signal)); unfold signed_amount; simpl.
  - assert (H : 0 <= p * win_pct signal w
                /\ p * win_pct signal w <= capital self * 0.04 * 0.045)
      by (apply product_bounds; lra).
    split; intros; lra.
  - destruct (Qlt_le_dec (loss_pct self signal) 0) as [Hneg|Hpos].
    + assert (H : 0 <= p * - loss_pct self signal)
        by (apply Qmult_le_0_compat; lra).
      split.
      * assert (p * - loss_pct self signal == - (p * loss_pct self signal))
          by ring.
        lra.
      * intro Hs. specialize (Hll Hs). lra.
    + assert (H : 0 <= p * loss_pct self signal
                  /\ p * loss_pct self signal <= capital self * 0.04 * 0.025)
        by (apply product_bounds; lra).
      split; intros; lra.
Qed.

(** X2.  With a positive capital, a confidence threshold of at least -4.5
    and a draw in [[0, 1)], one call of [trade] takes at most 0.1% off the
    capital (4% position at most, 2.5% loss at most); with a non-negative
    stop loss it adds at most 0.18% (4% position, 4.5% profit). *)
Theorem X2_trade_moves_capital_little (self : StandardBot)
  (signal : Signal.t) (u w : Q) (now : string) :
  0 < capital self ->
  -4.5 <= confidence_threshold self ->
  unit_draw w ->
  0.999 * capital self <= capital (fst (trade self signal u w now))
  /\ (0 <= stop_loss self ->
      capital (fst (trade self signal u w now)) <= 1.0018 * capital self).
Proof.
  intros Hc Ht Hw.
  destruct (trade_effect self signal u w now)
    as [->|[p [[_ [_ [_ Hf]]] [Hp ->]]]].
  - split; intros; lra.
  - destruct (executed_capital_bounds self signal p u w now Hc Ht Hw Hf Hp)
      as [Hlo Hhi].
    simpl capital. split.
    + lra.
    + intro Hs. specialize (Hhi Hs). lra.
Qed.

Lemma X2_witness :
  0.999 * capital bot_10000 <= capital (run bot_10000 losing_trade)
  /\ capital (run bot_10000 winning_trade) <= 1.0018 * capital bot_10000.
Proof.
  assert (Hc : 0 < capital bot_10000) by (vm_compute; reflexivity).
  assert (Ht : -4.5 <= confidence_threshold bot_10000)
    by (vm_compute; discriminate).
  assert (Hw0 : unit_draw 0) by (split; vm_compute; congruence).
  assert (Hw5 : unit_draw 0.5) by (split; vm_compute; congruence).
  split.
  - exact (proj1 (X2_trade_moves_capital_little bot_10000 scenario_signal
                    0.9 0 "t" Hc Ht Hw0)).
  - apply (proj2 (X2_trade_moves_capital_little bot_10000 scenario_signal
                    0.5 0.5 "t" Hc Ht Hw5)).
    vm_compute. discriminate.
Defined.

(** * Invariants of the reachable states *)

Lemma reset_effect (self : StandardBot) (today : string) :
  fst (reset_daily_stats self today) = after_reset self today.
Proof.
  unfold reset_daily_stats, after_reset. cbv zeta.
  destruct (Qltb 0 (capital self)) eqn:E; [|reflexivity].
  rewrite py_div_Ok by (props; lra). reflexivity.
Qed.

(** Induction over the reachable states, by what an operation does to the
    instance: nothing, a logged trade, or a daily reset. *)
Lemma reachable_ind_effect (capital0 : Q) (kwargs : Kwargs.t)
  (P : StandardBot -> Prop) :
  (forall self, init capital0 kwargs = Ok self -> P self) ->
  (forall self r,
     reachable capital0 kwargs self -> P self -> logged_by self r ->
     P (after_trade self r)) ->
  (forall self today,
     reachable capital0 kwargs self -> P self -> P (after_reset self today)) ->
  forall self, reachable capital0 kwargs self -> P self.
Proof.
  intros Hinit Htrade Hreset self Hr.
  induction Hr as [self H|self o Hr IH Hv]; [now apply Hinit|].
  destruct o as [signal u w now|today|now]; simpl.
  - destruct (trade_effect self signal u w now) as [->|[p [Hg [Hp ->]]]];
      [exact IH|].
    apply Htrade; [assumption..|].
    destruct Hv as [Hu Hw]. exists signal, p, u, w, now. auto.
  - rewrite reset_effect. now apply Hreset.
  - exact IH.
Qed.

Section Invariants.

Variable capital0 : Q.
Variable kwargs : Kwargs.t.

Lemma reachable_same_configuration (self self0 : StandardBot) :
  init capital0 kwargs = Ok self0 ->
  reachable capital0 kwargs self ->
  same_configuration self self0.
Proof.
  intros H0 Hr. revert self Hr.
  apply reachable_ind_effect.
  - intros self H. rewrite H0 in H. injection H as <-.
    unfold same_configuration. tauto.
  - intros self r _ IH _. exact IH.
  - intros self today _ IH. exact IH.
Qed.

Lemma reachable_confidence_threshold (self : StandardBot) :
  reachable capital0 kwargs self ->
  confidence_threshold self = get (Kwargs.confidence_threshold kwargs) 0.65.
Proof.
  intro Hr.
  destruct (reachable_same_configuration self _ eq_refl Hr)
    as [_ [_ [_ [_ [_ [_ [_ [_ [_ [_ [H _]]]]]]]]]]].
  exact H.
Qed.

Lemma signed_sum_app (l : list TradeRecord.t) (r : TradeRecord.t) :
  signed_sum (l ++ [r]) == signed_sum l + signed_amount r.
Proof.
  induction l as [|x l IH]; simpl; [ring|]. rewrite IH. ring.
Qed.

Lemma last_entries_snoc {A : Type} (n : nat) (l : list A) (x : A) :
  last_entries (S n) (l ++ [x]) = last_entries n l ++ [x].
Proof.
  unfold last_entries. rewrite rev_app_distr. reflexivity.
Qed.

Lemma logged_record_ok (self : StandardBot) (r : TradeRecord.t) :
  logged_by self r -> record_ok r.
Proof.
  intros [signal [p [u [w [now [_ [_ [_ [_ ->]]]]]]]]].
  unfold executed_record, record_ok. cbv zeta.
  destruct (Qltb u (success_probability signal)); simpl.
  - split; [reflexivity | apply win_pct_bounds].
  - split; [reflexivity | apply loss_pct_bounds].
Qed.

(** X8.  In every reachable state the capital is the starting capital plus
    the profits and minus the losses logged in [trade_history]. *)
Theorem X8_capital_is_the_sum_of_the_history (self : StandardBot) :
  reachable capital0 kwargs self ->
  capital self == capital0 + signed_sum (trade_history self).
Proof.
  revert self. apply reachable_ind_effect.
  - intros self H. injection H as <-. simpl. ring.
  - intros self r _ IH _. simpl. rewrite signed_sum_app, IH. ring.
  - intros self today _ IH. exact IH.
Qed.

(** X9.  In every reachable state [trades_today] counts the records
    logged since the last reset, and [daily_profit] is the sum of their
    profits minus their losses. *)
Theorem X9_daily_profit_is_the_sum_since_reset (self : StandardBot) :
  reachable capital0 kwargs self ->
  (0 <= trades_today self)%Z
  /\ (Z.to_nat (trades_today self) <= List.length (trade_history self))%nat
  /\ daily_profit self
     == signed_sum
          (last_entries (Z.to_nat (trades_today self)) (trade_history self)).
Proof.
  revert self. apply reachable_ind_effect.
  - intros self H. injection H as <-. simpl. repeat split; try lia; reflexivity.
  - intros self r _ [H0 [Hlen IH]] _. simpl.
    replace (Z.to_nat (trades_today self + 1))
      with (S (Z.to_nat (trades_today self))) by lia.
    rewrite last_entries_snoc, signed_sum_app, IH, length_app. simpl.
    repeat split; try lia; reflexivity.
  - intros self today _ _. simpl. repeat split; try lia; reflexivity.
Qed.

(** X10.  In every reachable state [trades_today] is between 0 and
    [max_daily_trades] (0 when that limit is negative). *)
Theorem X10_trades_today_within_limit (self : StandardBot) :
  reachable capital0 kwargs self ->
  (0 <= trades_today self <= Z.max 0 (max_trades_daily self))%Z.
Proof.
  revert self. apply reachable_ind_effect.
  - intros self H. injection H as <-. simpl. lia.
  - intros self r _ IH [signal [p [u [w [now [_ [_ [Hg _]]]]]]]].
    destruct Hg as [[Hlt _] _]. simpl. lia.
  - intros self today _ IH. simpl. lia.
Qed.

(** X18.  Every record of a reachable [trade_history] is coherent: its
    amount is its size times its percentage, a WIN has a profit percentage
    of at most 4.5% and a LOSS a loss percentage of at most 2.5%. *)
Theorem X18_logged_records_respect_the_caps (self : StandardBot) :
  reachable capital0 kwargs self ->
  Forall record_ok (trade_history self).
Proof.
  revert self. apply reachable_ind_effect.
  - intros self H. injection H as <-. constructor.
  - intros self r _ IH Hl. simpl. apply Forall_app. split; [exact IH|].
    constructor; [|constructor]. now apply (logged_record_ok self).
  - intros self today _ IH. exact IH.
Qed.

(** X12.  No operation assigns a configuration attribute: in every
    reachable state each of them holds its keyword argument or else its
    default, and [initial_capital] the starting capital. *)
Theorem X12_configuration_is_constant (self : StandardBot) :
  reachable capital0 kwargs self ->
  initial_capital self = capital0
  /\ target_return self = get (Kwargs.target_return kwargs) 0.02
  /\ max_target_return self = get (Kwargs.max_target_return kwargs) 0.05
  /\ max_dd self = get (Kwargs.max_drawdown kwargs) 0.05
  /\ stop_loss self = get (Kwargs.stop_loss kwargs) 0.01
  /\ max_risk_per_trade self = get (Kwargs.max_risk kwargs) 0.03
  /\ max_trades_daily self = get (Kwargs.max_daily_trades kwargs) 12%Z
  /\ emergency_stop_dd self = 0.045
  /\ size_reduction_dd self = 0.035
  /\ use_ai_sizing self = get (Kwargs.adaptive_sizing kwargs) true
  /\ confidence_threshold self
     = get (Kwargs.confidence_threshold kwargs) 0.65
  /\ regime_adaptation self = get (Kwargs.regime_adaptation kwargs) true.
Proof.
  intro Hr. exact (reachable_same_configuration self _ eq_refl Hr).
Qed.

End Invariants.

Lemma div_le_mult (a i m : Q) : 0 < i -> a / i <= m -> a <= m * i.
Proof.
  intros Hi H.
  assert (E : a == a / i * i) by (field; lra).
  rewrite E. apply Qmult_le_compat_r; lra.
Qed.

Section SoundConfiguration.

Variable capital0 : Q.
Variable kwargs : Kwargs.t.

Hypothesis capital0_positive : 0 < capital0.
Hypothesis threshold_sound :
  -4.5 <= get (Kwargs.confidence_threshold kwargs) 0.65.

(** X3.  For an instance constructed with a positive capital and a
    confidence threshold of at least -4.5, the capital is positive in every
    reachable state; and when [max_drawdown] is not negative the drawdown
    never exceeds it by more than the loss of the one trade that crossed
    it: [drawdown <= 0.001 + 0.999 * max_drawdown]. *)
Theorem X3_capital_positive_and_drawdown_bounded (self : StandardBot) :
  reachable capital0 kwargs self ->
  0 < capital self
  /\ (0 <= max_dd self -> drawdown self <= 0.001 + 0.999 * max_dd self).
Proof.
  intro Hr.
  assert (Hi : initial_capital self = capital0).
  { now destruct (reachable_same_configuration _ _ self _ eq_refl Hr). }
  cut (0 < capital self
       /\ (0 <= max_dd self ->
           initial_capital self - capital self
           <= (0.001 + 0.999 * max_dd self) * initial_capital self)).
  { intros [Hc Hd]. split; [exact Hc|]. intro Hm.
    unfold drawdown. apply Qle_shift_div_r; [rewrite Hi; lra | auto]. }
  clear Hi. revert self Hr. apply reachable_ind_effect.
  - intros self H. injection H as <-. simpl. split; [lra|].
    intro Hm. nra.
  - intros self r Hr [Hc Hd] [signal [p [u [w [now [_ [Hw [Hg [Hp ->]]]]]]]]].
    pose proof (reachable_confidence_threshold _ _ _ Hr) as Ht.
    assert (Hi : initial_capital self = capital0).
    { now destruct (reachable_same_configuration _ _ self _ eq_refl Hr). }
    destruct Hg as [_ [_ [Hdd Hf]]].
    destruct (executed_capital_bounds self signal p u w now) as [Hlo _];
      try assumption; [rewrite Ht; assumption|].
    cbv zeta in Hlo. simpl. split; [lra|]. intros Hm.
    apply div_le_mult in Hdd; [|rewrite Hi; lra].
    set (mi := max_dd self * initial_capital self) in *.
    assert (E : (0.001 + 0.999 * max_dd self) * initial_capital self
                == 0.001 * initial_capital self + 0.999 * mi)
      by (unfold mi; ring).
    rewrite E. lra.
  - intros self today _ IH. exact IH.
Qed.

End SoundConfiguration.

(** ** The daily statistics *)

Lemma of_nat_S (n : nat) : of_nat (S n) == of_nat n + 1.
Proof.
  unfold of_nat. rewrite Nat2Z.inj_succ, <- Z.add_1_r, inject_Z_plus.
  reflexivity.
Qed.

Lemma of_nat_nonneg (n : nat) : 0 <= of_nat n.
Proof.
  unfold of_nat. change 0 with (inject_Z 0). rewrite <- Zle_Qle. lia.
Qed.

Lemma of_nat_le (n m : nat) : (n <= m)%nat -> of_nat n <= of_nat m.
Proof.
  intro H. unfold of_nat. rewrite <- Zle_Qle. lia.
Qed.

Lemma fold_sum_bounds (lo hi : Q) (xs : list Q) :
  Forall (fun x => lo <= x /\ x <= hi) xs ->
  forall acc,
    acc + of_nat (List.length xs) * lo <= fold_left Qplus xs acc
    /\ fold_left Qplus xs acc <= acc + of_nat (List.length xs) * hi.
Proof.
  induction 1 as [|x xs [Hlo Hhi] _ IH]; intro acc.
  - simpl. unfold of_nat. simpl. split; ring_simplify; lra.
  - simpl fold_left. simpl List.length.
    destruct (IH (acc + x)) as [IHlo IHhi].
    pose proof (of_nat_S (List.length xs)) as E.
    set (n := of_nat (List.length xs)) in *.
    set (n' := of_nat (S (List.length xs))) in *.
    assert (E1 : n' * lo == n * lo + lo) by (rewrite E; ring).
    assert (E2 : n' * hi == n * hi + hi) by (rewrite E; ring).
    rewrite E1, E2. split; lra.
Qed.

Lemma count_wins_le_length (l : list TradeRecord.t) :
  (count_wins l <= List.length l)%nat.
Proof.
  induction l as [|t l IH]; simpl; [lia|].
  destruct (TradeRecord.type t); lia.
Qed.

Lemma mean_within (lo hi s n : Q) :
  0 < n -> n * lo <= s -> s <= n * hi -> lo <= s / n /\ s / n <= hi.
Proof.
  intros Hn Hlo Hhi. split.
  - apply Qle_shift_div_l; [assumption|]. rewrite Qmult_comm. assumption.
  - apply Qle_shift_div_r; [assumption|]. rewrite Qmult_comm. assumption.
Qed.

(** X16.  The win rate that [get_status] reports is a fraction between 0
    and 1, whatever the state. *)
Theorem X16_win_rate_is_a_fraction (self : StandardBot) (now : string) :
  exists status,
    snd (get_status self now) = Ok status
    /\ 0 <= Status.win_rate status /\ Status.win_rate status <= 1.
Proof.
  unfold get_status. simpl snd.
  rewrite !guarded_div. simpl bind.
  rewrite !nonempty_div. simpl bind.
  rewrite target_progress_Ok. simpl bind.
  eexists. split; [reflexivity|]. simpl Status.win_rate.
  rewrite wins_count.
  set (l := recent_trades (trade_history self)).
  destruct (nonempty l) eqn:E; [|lra].
  pose proof (of_nat_length_nonzero l E) as Hn.
  pose proof (of_nat_nonneg (List.length l)) as Hn0.
  pose proof (of_nat_nonneg (count_wins l)) as Hw0.
  pose proof (of_nat_le _ _ (count_wins_le_length l)) as Hle.
  apply mean_within; [lra | nra | nra].
Qed.

Section DailyStatistics.

Variable capital0 : Q.
Variable kwargs : Kwargs.t.

Lemma reachable_daily_returns_bounded (self : StandardBot) :
  reachable capital0 kwargs self ->
  worst_daily_return self <= 0 /\ 0 <= best_daily_return self
  /\ Forall (fun x => worst_daily_return self <= x
                      /\ x <= best_daily_return self)
       (map DailySummary.ret (daily_pnl_history self)).
Proof.
  revert self. apply reachable_ind_effect.
  - intros self H. injection H as <-. simpl. repeat split; try lra.
    constructor.
  - intros self r _ IH _. exact IH.
  - intros self today _ [Hw [Hb IH]]. unfold after_reset. cbv zeta. simpl.
    destruct (Qltb 0 (capital self)); [|auto].
    set (d := daily_profit self / capital self).
    pose proof (py_max_lower (best_daily_return self) d) as [Hb1 Hb2].
    pose proof (py_min_upper (worst_daily_return self) d) as [Hw1 Hw2].
    repeat split; try lra.
    rewrite map_app. apply Forall_app. split.
    + eapply Forall_impl; [|exact IH]. simpl. intros x [? ?]. split; lra.
    + constructor; [simpl; split; lra | constructor].
Qed.

(** X15.  In every reachable state [worst_daily_return <= 0 <=
    best_daily_return], every return logged in [daily_pnl_history] lies
    between the two, and so does the average daily return that
    [get_status] reports. *)
Theorem X15_daily_returns_between_worst_and_best (self : StandardBot)
  (now : string) :
  reachable capital0 kwargs self ->
  (worst_daily_return self <= 0 /\ 0 <= best_daily_return self)
  /\ Forall (fun d => worst_daily_return self <= DailySummary.ret d
                      /\ DailySummary.ret d <= best_daily_return self)
       (daily_pnl_history self)
  /\ exists status,
       snd (get_status self now) = Ok status
       /\ worst_daily_return self <= Status.avg_daily_return status
       /\ Status.avg_daily_return status <= best_daily_return self.
Proof.
  intro Hr.
  destruct (reachable_daily_returns_bounded self Hr) as [Hw [Hb Hall]].
  split; [auto|]. split.
  - rewrite Forall_map in Hall. exact Hall.
  - unfold get_status. simpl snd.
    rewrite !guarded_div. simpl bind.
    rewrite !nonempty_div. simpl bind.
    rewrite target_progress_Ok. simpl bind.
    eexists. split; [reflexivity|]. simpl Status.avg_daily_return.
    destruct (nonempty (daily_pnl_history self)) eqn:E; [|lra].
    pose proof (of_nat_length_nonzero _ E) as Hn.
    pose proof (of_nat_nonneg (List.length (daily_pnl_history self))) as Hn0.
    destruct (fold_sum_bounds _ _ _ Hall 0) as [Hlo Hhi].
    rewrite length_map in Hlo, Hhi.
    apply mean_within; unfold sum; lra.
Qed.

End DailyStatistics.

(** * The gates and the failures of [trade] *)



(** X4.  [trade] executes exactly when the four gates pass and the sizer
    returns: it then logs one record, of the kind the draw [u] decides, and
    moves [capital] and [daily_profit] by the record's signed amount,
    [trades_today] by one and the peak up to the new capital on a win; in
    every other case the instance is left as it was. *)
Theorem X4_trade_executes_exactly_when_gates_pass (self : StandardBot)
  (signal : Signal.t) (u w : Q) (now : string) :
  (forall position_size,
     all_gates_pass self signal ->
     calculate_position_size self signal = Ok position_size ->
     fst (trade self signal u w now)
     = after_trade self
         (executed_record self signal position_size u w now))
  /\ (~ all_gates_pass self signal
      \/ (forall position_size,
            calculate_position_size self signal <> Ok position_size) ->
      fst (trade self signal u w now) = self).
Proof.
  split.
  - intros p Hg Hp. now apply trade_executes.
  - intros H.
    destruct (trade_effect self signal u w now) as [E|[p [Hg [Hp _]]]];
      [exact E|].
    destruct H as [H|H]; [contradiction | now contradiction (H p)].
Qed.

Lemma X4_witness :
  all_gates_pass bot_10000 scenario_signal
  /\ exists r,
       fst (trade bot_10000 scenario_signal 0.9 0 "t")
       = after_trade bot_10000 r
       /\ TradeRecord.type r = LOSS
       /\ TradeRecord.size r == 285.
Proof.
  assert (Hg : all_gates_pass bot_10000 scenario_signal).
  { repeat split; vm_compute; congruence. }
  split; [exact Hg|].
  pose proof (proj1 (X4_trade_executes_exactly_when_gates_pass bot_10000
                       scenario_signal 0.9 0 "t")) as H.
  eexists. split.
  - eapply H; [exact Hg | vm_compute; reflexivity].
  - split; vm_compute; reflexivity.
Defined.

(** X5.  Below the daily trade limit, a daily return ratio that has
    reached [target_return] but not [max_target_return] stops the call with
    the minimum-target message, and one that has reached
    [max_target_return] with the maximum-target message; the instance is
    untouched and the signal is not looked at. *)
Theorem X5_target_gates (self : StandardBot) (signal : Signal.t) (u w : Q)
  (now : string) :
  (trades_today self < max_trades_daily self)%Z ->
  let r := daily_return_ratio self in
  (target_return self <= r -> r < max_target_return self ->
   trade self signal u w now
   = (self, Ok (MinimumTargetAchieved r (max_target_return self))))
  /\ (max_target_return self <= r ->
      trade self signal u w now = (self, Ok (MaximumTargetAchieved r))).
Proof.
  intros Hlt r. apply Z.leb_gt in Hlt.
  unfold trade. rewrite Hlt, guarded_div. cbv beta iota zeta.
  fold (daily_return_ratio self). fold r.
  split.
  - intros H1 H2. apply Qle_bool_iff in H1. apply Qltb_true in H2.
    now rewrite H1, H2.
  - intro H. assert (H2 : Qltb r (max_target_return self) = false)
      by now apply Qltb_false.
    apply Qle_bool_iff in H. rewrite H2, H, andb_false_r. reflexivity.
Qed.

Lemma X5_witness :
  (trades_today bot_in_drawdown_on_target
   < max_trades_daily bot_in_drawdown_on_target)%Z
  /\ trade bot_in_drawdown_on_target scenario_signal 0.5 0.5 "t"
     = (bot_in_drawdown_on_target,
        Ok (MinimumTargetAchieved
              (daily_return_ratio bot_in_drawdown_on_target) 0.05)).
Proof.
  assert (H : (trades_today bot_in_drawdown_on_target
               < max_trades_daily bot_in_drawdown_on_target)%Z)
    by (vm_compute; reflexivity).
  split; [exact H|].
  apply (proj1 (X5_target_gates bot_in_drawdown_on_target scenario_signal
                  0.5 0.5 "t" H)).
  - vm_compute. discriminate.
  - vm_compute. reflexivity.
Defined.

Lemma spec_thresholds_positive (adaptation : bool) (regime : string) :
  0 < fst (spec_thresholds adaptation regime)
  /\ 0 < snd (spec_thresholds adaptation regime).
Proof.
  unfold spec_thresholds.
  destruct adaptation; cbv [negb]; [|split; reflexivity].
  repeat match goal with
  | |- context [String.eqb regime ?k] => destruct (String.eqb regime k)
  end; split; reflexivity.
Qed.

(** X6.  A signal without ['score'], ['volatility'], ['trend'] or
    ['support_resistance'] is rejected by the filter under every
    configuration; and a call of [trade] with a signal the filter rejects
    never changes the instance. *)
Theorem X6_incomplete_signal_is_rejected (self : StandardBot)
  (signal : Signal.t) (u w : Q) (now : string) :
  (Signal.score signal = None \/ Signal.volatility signal = None
   \/ Signal.trend signal = None
   \/ Signal.support_resistance signal = None ->
   check_trade_conditions self signal = false)
  /\ (check_trade_conditions self signal = false ->
      fst (trade self signal u w now) = self).
Proof.
  split.
  - intro Hmiss.
    destruct (check_trade_conditions self signal) eqn:E; [|reflexivity].
    apply check_trade_conditions_spec in E.
    unfold seven_predicates in E. cbv zeta in E.
    destruct (spec_thresholds_positive (regime_adaptation self)
                (get (Signal.regime signal) "unknown"%string)) as [Hs Ht].
    destruct E as [E1 [[E2 _] [E3 [E4 _]]]].
    destruct Hmiss as [H|[H|[H|H]]]; rewrite H in *; simpl in *; lra.
  - intro Hf.
    destruct (trade_effect self signal u w now)
      as [E|[p [[_ [_ [_ Hc]]] _]]]; [exact E | congruence].
Qed.

Lemma X6_witness :
  check_trade_conditions bot_10000 Signal.empty = false
  /\ fst (trade bot_10000 Signal.empty 0.5 0.5 "t") = bot_10000.
Proof.
  assert (H : check_trade_conditions bot_10000 Signal.empty = false).
  { apply (proj1 (X6_incomplete_signal_is_rejected bot_10000 Signal.empty
                    0.5 0.5 "t")).
    left. reflexivity. }
  split; [exact H|].
  exact (proj2 (X6_incomplete_signal_is_rejected bot_10000 Signal.empty
                  0.5 0.5 "t") H).
Defined.




(** * How the operations share the instance *)

(** X11.  Every operation only appends to the two histories, one entry at
    most.  [trade] never touches the daily history or the best and worst
    daily returns; [reset_daily_stats] never touches the capital, the peak
    or the trade history; [get_status] changes nothing. *)
Theorem X11_histories_are_append_only (self : StandardBot) (o : op) :
  (exists t,
     trade_history (run self o) = trade_history self ++ t
     /\ (List.length t <= 1)%nat)
  /\ (exists d,
        daily_pnl_history (run self o) = daily_pnl_history self ++ d
        /\ (List.length d <= 1)%nat)
  /\ match o with
     | Trade _ _ _ _ =>
       daily_pnl_history (run self o) = daily_pnl_history self
       /\ best_daily_return (run self o) = best_daily_return self
       /\ worst_daily_return (run self o) = worst_daily_return self
     | ResetDailyStats _ =>
       capital (run self o) = capital self
       /\ peak_capital (run self o) = peak_capital self
       /\ trade_history (run self o) = trade_history self
     | GetStatus _ => run self o = self
     end.
Proof.
  destruct o as [signal u w now|today|now]; simpl run.
  - destruct (trade_effect self signal u w now) as [->|[p [_ [_ ->]]]].
    + repeat split; try (exists []; rewrite app_nil_r; simpl; auto).
    + simpl. repeat split.
      * eexists. split; [reflexivity | simpl; lia].
      * exists []. rewrite app_nil_r. simpl. auto.
  - rewrite reset_effect. unfold after_reset. cbv zeta. simpl.
    repeat split.
    + exists []. rewrite app_nil_r. simpl. auto.
    + destruct (Qltb 0 (capital self)).
      * eexists. split; [reflexivity | simpl; lia].
      * exists []. rewrite app_nil_r. simpl. auto.
  - repeat split; exists []; rewrite app_nil_r; simpl; auto.
Qed.

(** X17.  After [reset_daily_stats] the first two gates of [trade] are open
    again, provided the trade limit and the two targets are positive: a
    day stopped by the limit or by a reached target resumes. *)
Theorem X17_reset_reopens_the_early_gates (self : StandardBot)
  (today : string) :
  (0 < max_trades_daily self)%Z ->
  0 < target_return self ->
  0 < max_target_return self ->
  passes_early_gates (fst (reset_daily_stats self today)).
Proof.
  intros Hm Ht Hx. rewrite reset_effect.
  unfold passes_early_gates, daily_return_ratio, after_reset. cbv zeta.
  simpl.
  assert (E : (if Qltb 0 (capital self) then 0 / capital self else 0) == 0).
  { destruct (Qltb 0 (capital self)); [|reflexivity].
    unfold Qdiv. apply Qmult_0_l. }
  rewrite E. repeat split; assumption.
Qed.

Lemma X17_witness :
  passes_early_gates
    (fst (reset_daily_stats bot_in_drawdown_at_limit "d"))
  /\ ~ passes_early_gates bot_in_drawdown_at_limit.
Proof.
  split.
  - apply X17_reset_reopens_the_early_gates; vm_compute; reflexivity.
  - intros [H _]. vm_compute in H. discriminate.
Defined.

(** * The position sizer *)

(** X13.  The position size depends on the instance only through
    [capital], [initial_capital], [peak_capital], [stop_loss],
    [max_risk_per_trade], [use_ai_sizing] and [size_reduction_dd]: the
    daily profit, the targets, the counters and the histories play no part
    in it. *)
Theorem X13_sizer_reads_seven_attributes (a b : StandardBot)
  (signal : Signal.t) :
  capital a = capital b ->
  initial_capital a = initial_capital b ->
  peak_capital a = peak_capital b ->
  stop_loss a = stop_loss b ->
  max_risk_per_trade a = max_risk_per_trade b ->
  use_ai_sizing a = use_ai_sizing b ->
  size_reduction_dd a = size_reduction_dd b ->
  calculate_position_size a signal = calculate_position_size b signal.
Proof.
  intros H1 H2 H3 H4 H5 H6 H7.
  unfold calculate_position_size.
  rewrite !guarded_div, H1, H2, H3, H4, H5, H6, H7. reflexivity.
Qed.

Lemma X13_witness :
  calculate_position_size bot_near_target scenario_signal
  = calculate_position_size bot_10000 scenario_signal.
Proof.
  apply X13_sizer_reads_seven_attributes; reflexivity.
Defined.

(** X14.  The final clamp is inverted for a negative capital: whatever the
    signal, the sizer then returns [0.005 * capital], a negative size; for
    a zero capital it returns zero. *)
Theorem X14_sizer_on_non_positive_capital (self : StandardBot)
  (signal : Signal.t) (v : Q) :
  calculate_position_size self signal = Ok v ->
  (capital self < 0 -> v = capital self * 0.005)
  /\ (capital self == 0 -> v == 0).
Proof.
  intro Hv.
  destruct (calculate_position_size_clamped _ _ _ Hv) as [x ->].
  pose proof (py_min_upper x (capital self * 0.04)) as [_ Hu].
  destruct (py_max_cases (py_min x (capital self * 0.04))
              (capital self * 0.005)) as [[H ->]|[H ->]].
  - split; [reflexivity | intro; lra].
  - split; intro; lra.
Qed.

Lemma X14_witness :
  capital bot_negative < 0
  /\ calculate_position_size bot_negative scenario_signal
     = Ok (capital bot_negative * 0.005).
Proof.
  assert (Hc : capital bot_negative < 0) by (vm_compute; reflexivity).
  split; [exact Hc|].
  destruct (calculate_position_size bot_negative scenario_signal) as [v|e]
    eqn:E; [|vm_compute in E; discriminate].
  now rewrite (proj1 (X14_sizer_on_non_positive_capital bot_negative
                        scenario_signal v E) Hc).
Defined.

(** * The invariants on the scenario of section 8

    [StandardBot(10000)] after one losing trade of the scenario signal. *)

Ltac scenario_reachable :=
  apply reachable_run;
  [ apply reachable_init; reflexivity
  | repeat split; vm_compute; congruence ].

Lemma X3_witness :
  reachable 10000 Kwargs.empty (run bot_10000 losing_trade)
  /\ 0 < capital (run bot_10000 losing_trade)
  /\ drawdown (run bot_10000 losing_trade) <= 0.001 + 0.999 * 0.05.
Proof.
  assert (Hr : reachable 10000 Kwargs.empty (run bot_10000 losing_trade))
    by scenario_reachable.
  assert (Hc : 0 < 10000) by (vm_compute; reflexivity).
  assert (Ht : -4.5 <= get (Kwargs.confidence_threshold Kwargs.empty) 0.65)
    by (vm_compute; discriminate).
  destruct (X3_capital_positive_and_drawdown_bounded 10000 Kwargs.empty
              Hc Ht _ Hr) as [Hpos Hdd].
  split; [exact Hr|]. split; [exact Hpos|].
  apply Hdd. vm_compute. discriminate.
Defined.

Lemma X8_witness :
  reachable 10000 Kwargs.empty (run bot_10000 losing_trade)
  /\ capital (run bot_10000 losing_trade)
     == 10000 + signed_sum (trade_history (run bot_10000 losing_trade)).
Proof.
  assert (Hr : reachable 10000 Kwargs.empty (run bot_10000 losing_trade))
    by scenario_reachable.
  split; [exact Hr|].
  exact (X8_capital_is_the_sum_of_the_history 10000 Kwargs.empty _ Hr).
Defined.

Lemma X9_witness :
  reachable 10000 Kwargs.empty (run bot_10000 losing_trade)
  /\ daily_profit (run bot_10000 losing_trade)
     == signed_sum
          (last_entries
             (Z.to_nat (trades_today (run bot_10000 losing_trade)))
             (trade_history (run bot_10000 losing_trade))).
Proof.
  assert (Hr : reachable 10000 Kwargs.empty (run bot_10000 losing_trade))
    by scenario_reachable.
  split; [exact Hr|].
  exact (proj2 (proj2 (X9_daily_profit_is_the_sum_since_reset 10000
                         Kwargs.empty _ Hr))).
Defined.

Lemma X10_witness :
  reachable 10000 Kwargs.empty (run bot_10000 losing_trade)
  /\ (0 <= trades_today (run bot_10000 losing_trade)
      <= Z.max 0 (max_trades_daily (run bot_10000 losing_trade)))%Z.
Proof.
  assert (Hr : reachable 10000 Kwargs.empty (run bot_10000 losing_trade))
    by scenario_reachable.
  split; [exact Hr|].
  exact (X10_trades_today_within_limit 10000 Kwargs.empty _ Hr).
Defined.

Lemma X12_witness :
  reachable 10000 Kwargs.empty (run bot_10000 losing_trade)
  /\ initial_capital (run bot_10000 losing_trade) = 10000
  /\ stop_loss (run bot_10000 losing_trade) = 0.01.
Proof.
  assert (Hr : reachable 10000 Kwargs.empty (run bot_10000 losing_trade))
    by scenario_reachable.
  split; [exact Hr|].
  destruct (X12_configuration_is_constant 10000 Kwargs.empty _ Hr)
    as [Hi [_ [_ [_ [Hs _]]]]].
  split; [exact Hi | exact Hs].
Defined.

Lemma X15_witness :
  reachable 10000 Kwargs.empty
    (run (run bot_10000 losing_trade) (ResetDailyStats "d"))
  /\ Forall
       (fun d =>
          worst_daily_return
            (run (run bot_10000 losing_trade) (ResetDailyStats "d"))
          <= DailySummary.ret d
          /\ DailySummary.ret d
             <= best_daily_return
                  (run (run bot_10000 losing_trade) (ResetDailyStats "d")))
       (daily_pnl_history
          (run (run bot_10000 losing_trade) (ResetDailyStats "d"))).
Proof.
  assert (Hr : reachable 10000 Kwargs.empty
                 (run (run bot_10000 losing_trade) (ResetDailyStats "d"))).
  { apply reachable_run; [scenario_reachable | exact I]. }
  split; [exact Hr|].
  exact (proj1 (proj2 (X15_daily_returns_between_worst_and_best 10000
                         Kwargs.empty _ "t" Hr))).
Defined.

Lemma X18_witness :
  reachable 10000 Kwargs.empty (run bot_10000 losing_trade)
  /\ Forall record_ok (trade_history (run bot_10000 losing_trade)).
Proof.
  assert (Hr : reachable 10000 Kwargs.empty (run bot_10000 losing_trade))
    by scenario_reachable.
  split; [exact Hr|].
  exact (X18_logged_records_respect_the_caps 10000 Kwargs.empty _ Hr).
Defined.
